(** * OmNomNom: recipe scaling and shopping-list generation

    A shallow embedding of the two request handlers that carry the
    domain logic of the application,

    - [src/pages/api/recipes/[id]/scale.ts]      (module [Scale]),
    - [src/pages/api/shopping-lists/generate.ts] (module [Generate]),

    together with the fragment of JavaScript they rely on (module [Js]).

    Conventions of the embedding.

    - A finite JavaScript number is modelled by the rational it denotes
      and arithmetic on finite numbers is exact: the rounding of
      binary64 operations is not modelled. [NaN] and the two infinities
      are kept, signed zeros are not distinguished. Where the rounding
      of the operations decides a property, module [B64] evaluates the
      same steps of the source on binary64 numbers.
    - Strings are Stdlib strings of ASCII characters.
    - Rows have the members their TypeScript types declare, except that
      a numeric column may be [null] where a property speaks of a
      missing quantity.
    - Every answer of the database client is an input of the handler:
      the handlers are functions of a record that holds the request and
      the outcome of each query, in the order of the source's steps. *)

From Stdlib Require Import ZArith QArith Qround String Ascii List Bool Lia.
From Stdlib Require Import DecimalString Permutation Qabs SpecFloat.
Import ListNotations.

Set Implicit Arguments.

(* ================================================================== *)
(** * The JavaScript fragment used by the handlers                     *)
(* ================================================================== *)

Module Js.

Local Open Scope string_scope.

(** ** Strings *)

Definition is_upper (c : ascii) : bool :=
  let n := nat_of_ascii c in (65 <=? n)%nat && (n <=? 90)%nat.

Definition lower_char (c : ascii) : ascii :=
  if is_upper c then ascii_of_nat (nat_of_ascii c + 32) else c.

(** [String.prototype.toLowerCase]. *)
Fixpoint toLowerCase (s : string) : string :=
  match s with
  | EmptyString => EmptyString
  | String c r => String (lower_char c) (toLowerCase r)
  end.

(** White space removed by [trim]: TAB, LF, VT, FF, CR and SPACE. *)
Definition is_space (c : ascii) : bool :=
  let n := nat_of_ascii c in
  ((9 <=? n)%nat && (n <=? 13)%nat) || (n =? 32)%nat.

Fixpoint trimStart (s : string) : string :=
  match s with
  | EmptyString => EmptyString
  | String c r => if is_space c then trimStart r else s
  end.

Fixpoint trimEnd (s : string) : string :=
  match s with
  | EmptyString => EmptyString
  | String c r =>
      match trimEnd r with
      | EmptyString => if is_space c then EmptyString else String c EmptyString
      | r' => String c r'
      end
  end.

(** [String.prototype.trim]. *)
Definition trim (s : string) : string := trimEnd (trimStart s).

(** [s.includes(sub)]: [sub] occurs in [s] as a contiguous substring,
    compared code unit by code unit. *)
Fixpoint includes (s sub : string) : bool :=
  prefix sub s ||
  match s with
  | EmptyString => false
  | String _ r => includes r sub
  end.

(** [s.startsWith(p)]. *)
Definition startsWith (s p : string) : bool := prefix p s.

(** [s.substring(n)]. *)
Fixpoint substring_from (n : nat) (s : string) : string :=
  match n, s with
  | O, _ => s
  | S _, EmptyString => EmptyString
  | S m, String _ r => substring_from m r
  end.

(** A string in a condition is true when it is not empty. *)
Definition string_truthy (s : string) : bool :=
  match s with EmptyString => false | _ => true end.

(** ** Numbers *)

Inductive number : Type :=
| NaN
| PosInf
| NegInf
| Fin (q : Q).

Definition of_Z (z : Z) : number := Fin (inject_Z z).

Definition Qltb (a b : Q) : bool := negb (Qle_bool b a).

(** [true] for a negative number. *)
Definition is_neg (q : Q) : bool := Qltb q 0.

Definition inf (negative : bool) : number :=
  if negative then NegInf else PosInf.

(** [a * b]. *)
Definition mul (a b : number) : number :=
  match a, b with
  | NaN, _ | _, NaN => NaN
  | Fin x, Fin y => Fin (x * y)
  | PosInf, PosInf | NegInf, NegInf => PosInf
  | PosInf, NegInf | NegInf, PosInf => NegInf
  | PosInf, Fin y | Fin y, PosInf =>
      if Qeq_bool y 0 then NaN else inf (is_neg y)
  | NegInf, Fin y | Fin y, NegInf =>
      if Qeq_bool y 0 then NaN else inf (negb (is_neg y))
  end.

(** [a / b]. *)
Definition div (a b : number) : number :=
  match a, b with
  | NaN, _ | _, NaN => NaN
  | Fin x, Fin y =>
      if Qeq_bool y 0
      then (if Qeq_bool x 0 then NaN else inf (is_neg x))
      else Fin (x / y)
  | Fin _, (PosInf | NegInf) => Fin 0
  | (PosInf | NegInf), (PosInf | NegInf) => NaN
  | PosInf, Fin y => inf (is_neg y)
  | NegInf, Fin y => inf (negb (is_neg y))
  end.

(** [a + b]. *)
Definition add (a b : number) : number :=
  match a, b with
  | NaN, _ | _, NaN => NaN
  | Fin x, Fin y => Fin (x + y)
  | PosInf, NegInf | NegInf, PosInf => NaN
  | PosInf, _ | _, PosInf => PosInf
  | NegInf, _ | _, NegInf => NegInf
  end.

(** [a <= b]; a comparison with [NaN] is false. *)
Definition le (a b : number) : bool :=
  match a, b with
  | NaN, _ | _, NaN => false
  | NegInf, _ | _, PosInf => true
  | PosInf, _ | _, NegInf => false
  | Fin x, Fin y => Qle_bool x y
  end.

(** [a > b]; a comparison with [NaN] is false. *)
Definition gt (a b : number) : bool :=
  match a, b with
  | NaN, _ | _, NaN => false
  | _, PosInf | NegInf, _ => false
  | PosInf, _ | _, NegInf => true
  | Fin x, Fin y => Qltb y x
  end.

(** [Math.round]: the nearest integer, a tie going towards plus
    infinity, that is [floor (x + 1/2)]. *)
Definition Math_round (a : number) : number :=
  match a with
  | Fin x => Fin (inject_Z (Qfloor (x + (1 # 2))))
  | _ => a
  end.

(** A number in a condition is true unless it is zero or [NaN]. *)
Definition number_truthy (a : number) : bool :=
  match a with
  | NaN => false
  | Fin x => negb (Qeq_bool x 0)
  | _ => true
  end.

(** Numbers that denote the same value. *)
Definition num_eq (a b : number) : Prop :=
  match a, b with
  | NaN, NaN | PosInf, PosInf | NegInf, NegInf => True
  | Fin x, Fin y => x == y
  | _, _ => False
  end.

Definition num_eqb (a b : number) : bool :=
  match a, b with
  | NaN, NaN | PosInf, PosInf | NegInf, NegInf => true
  | Fin x, Fin y => Qeq_bool x y
  | _, _ => false
  end.

(** ** Printing numbers *)

Definition digits (n : Z) : string :=
  NilZero.string_of_uint (N.to_uint (Z.to_N n)).

(** The decimal text of [k / 100], as [Number.prototype.toString]
    prints it: no fraction for an integer, no trailing zero. *)
Definition hundredths_toString (k : Z) : string :=
  let a := Z.abs k in
  let ip := (a / 100)%Z in
  let fp := (a mod 100)%Z in
  (if (k <? 0)%Z then "-" else "") ++
  digits ip ++
  (if (fp =? 0)%Z then ""
   else if (fp mod 10 =? 0)%Z then "." ++ digits (fp / 10)
   else if (fp <? 10)%Z then ".0" ++ digits fp
   else "." ++ digits fp).

(** [Number.prototype.toString], for the numbers the handlers print:
    the non-finite ones and the multiples of 1/100 (what a division of
    an integer by 100 yields), below the magnitude at which JavaScript
    switches to exponent notation. *)
Definition number_toString (a : number) : string :=
  match a with
  | NaN => "NaN"
  | PosInf => "Infinity"
  | NegInf => "-Infinity"
  | Fin x => hundredths_toString (Qfloor (x * 100))
  end.

(** ** Values *)

(** A value read from a parsed JSON body. [VObject] stands for any
    object or array. *)
Inductive value : Type :=
| VUndefined
| VNull
| VBool (b : bool)
| VNumber (n : number)
| VString (s : string)
| VObject.

(** The value in a condition ([!v] is its negation). *)
Definition truthy (v : value) : bool :=
  match v with
  | VUndefined | VNull => false
  | VBool b => b
  | VNumber n => number_truthy n
  | VString s => string_truthy s
  | VObject => true
  end.

(** [typeof v === 'number']. *)
Definition is_number (v : value) : bool :=
  match v with VNumber _ => true | _ => false end.

(** A numeric column as the database client hands it over: a number,
    or [null] when the row holds none. *)
Definition nullable_number : Type := option number.

(** The number a nullable operand of an arithmetic operator stands
    for: [null] converts to 0. *)
Definition to_number (v : nullable_number) : number :=
  match v with
  | Some n => n
  | None => Fin 0
  end.

End Js.

(* ================================================================== *)
(** * Responses and database answers shared by the handlers           *)
(* ================================================================== *)

Module Http.

Local Open Scope string_scope.

(** [ApiErrorCode] of [src/types.ts]. *)
Inductive ApiErrorCode : Type :=
| VALIDATION_ERROR
| AUTHENTICATION_ERROR
| AUTHORIZATION_ERROR
| NOT_FOUND
| CONFLICT
| RATE_LIMIT_EXCEEDED
| INTERNAL_ERROR.

(** [ApiError]; its [details] are always the empty object. *)
Record ApiError : Type := mkApiError {
  code : ApiErrorCode;
  message : string;
  field : option string
}.

(** What a handler returns: a JSON error with its status, or status 200
    with a payload. The payload is the object the handler builds; it is
    sent as [JSON.stringify] writes it, which is [null] for a number
    that is [NaN] or infinite. *)
Inductive Response (A : Type) : Type :=
| ErrorResponse (status : Z) (error : ApiError)
| Ok200 (payload : A).

Arguments ErrorResponse {A} status error.
Arguments Ok200 {A} payload.

(** [jsonError(code, message, status, field?)]: the field is spread into
    the error only when it is given and not empty. *)
Definition jsonError {A} (c : ApiErrorCode) (msg : string) (status : Z)
    (fld : option string) : Response A :=
  ErrorResponse status
    {| code := c;
       message := msg;
       field := match fld with
                | Some f => if Js.string_truthy f then Some f else None
                | None => None
                end |}.

(** The [{ data, error }] pair a query resolves to. *)
Record Answer (A : Type) : Type := mkAnswer {
  data : option A;
  error : bool
}.

Definition answered {A} (x : A) : Answer A :=
  {| data := Some x; error := false |}.

(** [Authorization: Bearer <token>]: the token, when the header has that
    shape. *)
Definition bearer_token (authHeader : option string) : option string :=
  match authHeader with
  | Some h =>
      if Js.string_truthy h && Js.startsWith h "Bearer "
      then Some (Js.substring_from 7 h)
      else None
  | None => None
  end.

End Http.

(* ================================================================== *)
(** * POST /api/recipes/:id/scale                                      *)
(* ================================================================== *)

Module Scale.

Import Js Http.
Local Open Scope string_scope.

(** The recipe row selected in step 4. *)
Module Recipe.
Record t : Type := mk {
  id : string;
  title : string;
  servings : number;
  is_public : bool;
  user_id : string
}.
End Recipe.

(** A [recipe_ingredients] row selected in step 6, with the joined
    ingredient's name. *)
Module Line.
Record t : Type := mk {
  id : string;
  quantity : nullable_number;
  quantity_display : option string;
  unit : string;
  order_index : Z;
  ingredient_id : string;
  ingredient_name : string
}.
End Line.

(** [ScaledIngredientDTO]. *)
Module Scaled.
Record t : Type := mk {
  name : string;
  display_name : string;
  original_quantity : nullable_number;
  scaled_quantity : number;
  quantity_display : string;
  unit : string;
  notes : option string
}.
End Scaled.

(** [ScaledRecipeDTO]. *)
Record ScaledRecipeDTO : Type := mkScaledRecipeDTO {
  original_servings : number;
  desired_servings : number;
  scaling_factor : number;
  scaled_ingredients : list Scaled.t
}.

(** [ScaleRecipeCommand], as parsed from the request: the member may be
    missing or hold any JSON value. *)
Module Command.
Record t : Type := mk {
  desired_servings : value
}.
End Command.

(** The request, and what the database client answers to each of the
    handler's queries. [body = None] is a body that is not JSON; a
    parsed body is taken to be an object. *)
Record Request : Type := mkRequest {
  params_id : option string;
  body : option Command.t;
  authorization : option string;
  getUser : string -> option string;
  recipe_answer : Answer Recipe.t;
  ingredients_answer : Answer (list Line.t)
}.

Definition hundred : number := of_Z 100.

(** [Math.round(x * 100) / 100]. *)
Definition round_to_cents (x : number) : number :=
  div (Math_round (mul x hundred)) hundred.

Definition not_scaled_note : string := "*Not scaled - adjust to taste".

(** [ri.quantity_display] in a condition: present and not empty. *)
Definition has_display (d : option string) : bool :=
  match d with
  | Some s => string_truthy s
  | None => false
  end.

(** Step 8, the body of the [map] callback. *)
Definition scale_line (scalingFactor : number) (ri : Line.t) : Scaled.t :=
  let scaledQuantity := mul (to_number (Line.quantity ri)) scalingFactor in
  let roundedQuantity := round_to_cents scaledQuantity in
  let quantityDisplay :=
    match Line.quantity_display ri with
    | Some d => if string_truthy d then d else number_toString roundedQuantity
    | None => number_toString roundedQuantity
    end in
  let notes :=
    match Line.quantity_display ri with
    | Some d =>
        if string_truthy d && (includes d "taste" || includes d "pinch")
        then Some not_scaled_note
        else None
    | None => None
    end in
  {| Scaled.name := Line.ingredient_name ri;
     Scaled.display_name := Line.ingredient_name ri;
     Scaled.original_quantity := Line.quantity ri;
     Scaled.scaled_quantity := roundedQuantity;
     Scaled.quantity_display := quantityDisplay;
     Scaled.unit := Line.unit ri;
     Scaled.notes := notes |}.

(** Steps 7 to 9: the scaling itself, once the request is accepted and
    the rows are fetched. [recipeIngredients || []] reads [null] as no
    line. *)
Definition scale (servings desired : number)
    (recipeIngredients : option (list Line.t)) : ScaledRecipeDTO :=
  let scalingFactor := div desired servings in
  let lines := match recipeIngredients with Some l => l | None => [] end in
  {| original_servings := servings;
     desired_servings := desired;
     scaling_factor := round_to_cents scalingFactor;
     scaled_ingredients := map (scale_line scalingFactor) lines |}.

(** Step 2, the three checks on [body.desired_servings]: the error to
    return, or the number when all pass. *)
Definition check_desired_servings (v : value)
    : Response ScaledRecipeDTO + number :=
  if negb (truthy v) || negb (is_number v) then
    inl (jsonError VALIDATION_ERROR
           "desired_servings is required and must be a number" 400
           (Some "desired_servings"))
  else
    match v with
    | VNumber n =>
        if le n (Fin 0) then
          inl (jsonError VALIDATION_ERROR
                 "desired_servings must be greater than 0" 400
                 (Some "desired_servings"))
        else if gt n (of_Z 1000) then
          inl (jsonError VALIDATION_ERROR
                 "desired_servings must not exceed 1000" 400
                 (Some "desired_servings"))
        else inr n
    | _ =>
        (* not reached: [typeof v] is ['number'] here *)
        inl (jsonError VALIDATION_ERROR
               "desired_servings is required and must be a number" 400
               (Some "desired_servings"))
    end.

(** The shape of the three errors of step 2 on [desired_servings]. *)
Definition desired_servings_error (msg : string) : Response ScaledRecipeDTO :=
  jsonError VALIDATION_ERROR msg 400 (Some "desired_servings").

(** Step 1: [!id || id.trim().length === 0]. *)
Definition id_missing (id : option string) : bool :=
  match id with
  | Some s => negb (string_truthy s) || negb (string_truthy (trim s))
  | None => true
  end.

(** Steps 1 to 5: the error that ends the request, or the recipe to
    scale and the accepted number of servings. *)
Definition accept (r : Request)
    : Response ScaledRecipeDTO + (Recipe.t * number) :=
  (* Step 1 *)
  if id_missing (params_id r) then
    inl (jsonError VALIDATION_ERROR "Recipe ID parameter is required" 400
           (Some "id"))
  else
  (* Step 2 *)
  match body r with
  | None => inl (jsonError VALIDATION_ERROR "Invalid JSON in request body" 400 None)
  | Some command =>
  match check_desired_servings (Command.desired_servings command) with
  | inl e => inl e
  | inr desired =>
  (* Step 3 *)
  let authenticatedUserId :=
    match bearer_token (authorization r) with
    | Some token => getUser r token
    | None => None
    end in
  (* Step 4 *)
  match error (recipe_answer r), data (recipe_answer r) with
  | true, _ | _, None => inl (jsonError NOT_FOUND "Recipe not found" 404 None)
  | false, Some recipe =>
  (* Step 5 *)
  let is_owner :=
    match authenticatedUserId with
    | Some u => String.eqb (Recipe.user_id recipe) u
    | None => false
    end in
  if negb (Recipe.is_public recipe) && negb is_owner then
    inl (jsonError AUTHORIZATION_ERROR
           "You do not have permission to scale this recipe" 403 None)
  else inr (recipe, desired)
  end end end.

(** The handler. *)
Definition POST (r : Request) : Response ScaledRecipeDTO :=
  match accept r with
  | inl e => e
  | inr (recipe, desired) =>
      (* Step 6 *)
      if error (ingredients_answer r) then
        jsonError INTERNAL_ERROR "Failed to fetch recipe ingredients" 500 None
      else
        (* Steps 7 to 9 *)
        Ok200 (scale (Recipe.servings recipe) desired
                 (data (ingredients_answer r)))
  end.

End Scale.

(* ================================================================== *)
(** * POST /api/shopping-lists/generate                                *)
(* ================================================================== *)

Module Generate.

Import Js Http.
Local Open Scope string_scope.

(** [normalizeIngredientName]. *)
Definition normalizeIngredientName (name : string) : string :=
  trim (toLowerCase name).

(** A recipe row selected in step 3. *)
Module Owner.
Record t : Type := mk {
  id : string;
  user_id : string
}.
End Owner.

(** A [recipe_ingredients] row as stored ([RecipeIngredientEntity]),
    with the name of the ingredient it references. *)
Module Stored.
Record t : Type := mk {
  id : string;
  recipe_id : string;
  ingredient_id : string;
  ingredient_name : string;
  quantity : nullable_number;
  quantity_display : option string;
  unit : string;
  order_index : Z;
  notes : option string
}.
End Stored.

(** What step 6 selects of a stored row: [recipe_id], [quantity],
    [unit] and the joined ingredient. *)
Module Line.
Record t : Type := mk {
  recipe_id : string;
  quantity : nullable_number;
  unit : string;
  ingredient_id : string;
  ingredient_name : string
}.
End Line.

Definition select_line (row : Stored.t) : Line.t :=
  {| Line.recipe_id := Stored.recipe_id row;
     Line.quantity := Stored.quantity row;
     Line.unit := Stored.unit row;
     Line.ingredient_id := Stored.ingredient_id row;
     Line.ingredient_name := Stored.ingredient_name row |}.

(** A value of the [combinedIngredients] map. *)
Module Combined.
Record t : Type := mk {
  name : string;
  quantity : nullable_number;
  unit : string;
  recipe_ids : list string
}.
End Combined.

(** [Set.prototype.add] on a set kept in insertion order. *)
Definition set_add (x : string) (s : list string) : list string :=
  if existsb (String.eqb x) s then s else (s ++ [x])%list.

(** The [Map<string, ...>] of step 7, in insertion order. *)
Definition Map : Type := list (string * Combined.t).

Fixpoint has (key : string) (m : Map) : bool :=
  match m with
  | [] => false
  | (k, _) :: rest => String.eqb key k || has key rest
  end.

Fixpoint get (key : string) (m : Map) : option Combined.t :=
  match m with
  | [] => None
  | (k, v) :: rest => if String.eqb key k then Some v else get key rest
  end.

(** The object stored under [key] is modified in place. *)
Fixpoint modify (key : string) (f : Combined.t -> Combined.t) (m : Map) : Map :=
  match m with
  | [] => []
  | (k, v) :: rest =>
      if String.eqb key k then (k, f v) :: rest
      else (k, v) :: modify key f rest
  end.

(** [Map.prototype.set] of a key the map does not hold. *)
Definition set_new (key : string) (v : Combined.t) (m : Map) : Map :=
  (m ++ [(key, v)])%list.

Definition values (m : Map) : list Combined.t := map snd m.

Definition keys (m : Map) : list string := map fst m.

(** The grouping key of a line. *)
Definition key_of (ri : Line.t) : string :=
  let normalizedName := normalizeIngredientName (Line.ingredient_name ri) in
  normalizedName ++ "::" ++ toLowerCase (Line.unit ri).

(** [existing.quantity += ri.quantity]. *)
Definition plus_assign (existing q : nullable_number) : nullable_number :=
  Some (add (to_number existing) (to_number q)).

(** The object stored for the first line of a key. *)
Definition first_seen (ri : Line.t) : Combined.t :=
  {| Combined.name := Line.ingredient_name ri;
     Combined.quantity := Line.quantity ri;
     Combined.unit := Line.unit ri;
     Combined.recipe_ids := [Line.recipe_id ri] |}.

(** What a further line of the key does to the stored object. *)
Definition merged (ri : Line.t) (existing : Combined.t) : Combined.t :=
  {| Combined.name := Combined.name existing;
     Combined.quantity :=
       plus_assign (Combined.quantity existing) (Line.quantity ri);
     Combined.unit := Combined.unit existing;
     Combined.recipe_ids :=
       set_add (Line.recipe_id ri) (Combined.recipe_ids existing) |}.

(** Step 7, the body of the [forEach] callback. *)
Definition combine (m : Map) (ri : Line.t) : Map :=
  let key := key_of ri in
  if has key m then modify key (merged ri) m
  else set_new key (first_seen ri) m.

(** Step 7: [recipeIngredients || []] reads [null] as no line. *)
Definition combinedIngredients (recipeIngredients : option (list Line.t)) : Map :=
  fold_left combine
    (match recipeIngredients with Some l => l | None => [] end) [].

(** A row to insert into [shopping_list_items]. *)
Module Insert.
Record t : Type := mk {
  shopping_list_id : string;
  source_recipe_id : option string;
  name : string;
  quantity : number;
  unit : string;
  category : option string;
  is_checked : bool;
  created_at : string
}.
End Insert.

(** [Math.round(x * 100) / 100]. *)
Definition round_to_cents (x : number) : number :=
  div (Math_round (mul x (of_Z 100))) (of_Z 100).

(** Step 8, the rows built from the map's values; [now] is the time
    [new Date().toISOString()] reads. *)
Definition itemsToInsert (shoppingListId now : string) (m : Map) : list Insert.t :=
  map (fun item =>
         {| Insert.shopping_list_id := shoppingListId;
            Insert.source_recipe_id := None;
            Insert.name := Combined.name item;
            Insert.quantity := round_to_cents (to_number (Combined.quantity item));
            Insert.unit := Combined.unit item;
            Insert.category := None;
            Insert.is_checked := false;
            Insert.created_at := now |})
      (values m).

(** The aggregation of steps 7 and 8 alone: from the selected lines to
    the rows handed to the database. *)
Definition aggregate (shoppingListId now : string) (lines : list Line.t)
    : list Insert.t :=
  itemsToInsert shoppingListId now (combinedIngredients (Some lines)).

(** A stored shopping-list item ([ShoppingListItemDTO]). *)
Module Item.
Record t : Type := mk {
  id : string;
  shopping_list_id : string;
  source_recipe_id : option string;
  name : string;
  quantity : number;
  unit : string;
  category : option string;
  is_checked : bool;
  created_at : string
}.
End Item.

(** [GenerateShoppingListCommand], as parsed from the request:
    [recipe_ids = None] is a member that is not an array. *)
Module Command.
Record t : Type := mk {
  recipe_ids : option (list string);
  replace_existing : value
}.
End Command.

(** [GenerateShoppingListResponse]. *)
Record GenerateShoppingListResponse : Type := mkGenerateShoppingListResponse {
  id : string;
  items_added : nat;
  items_updated : nat;
  items : list Item.t
}.

(** The answer to the query for the user's shopping list: its id, and
    the code of the error if there is one. *)
Record ListAnswer : Type := mkListAnswer {
  list_data : option string;
  list_error : option string
}.

(** The request, and what the database client answers to each of the
    handler's queries. [body = None] is a body that is not JSON. *)
Record Request : Type := mkRequest {
  authorization : option string;
  getUser : string -> Answer string;
  body : option Command.t;
  recipes_answer : Answer (list Owner.t);
  list_answer : ListAnswer;
  create_answer : Answer string;
  delete_error : bool;
  ingredients_answer : Answer (list Line.t);
  insert_answer : list Insert.t -> Answer (list Item.t);
  now : string
}.

(** Step 4: the id of the user's shopping list, created when the query
    reports that there is none, or the error to return. *)
Definition shopping_list (r : Request)
    : Response GenerateShoppingListResponse + string :=
  match list_error (list_answer r) with
  | Some c =>
      if String.eqb c "PGRST116" then
        match error (create_answer r), data (create_answer r) with
        | false, Some newList => inr newList
        | _, _ =>
            inl (jsonError INTERNAL_ERROR "Failed to create shopping list" 500 None)
        end
      else inl (jsonError INTERNAL_ERROR "Failed to fetch shopping list" 500 None)
  | None =>
      match list_data (list_answer r) with
      | Some l => inr l
      | None =>
          inl (jsonError INTERNAL_ERROR "Failed to fetch shopping list" 500 None)
      end
  end.

(** Steps 5 to 10, once the request is accepted and the shopping list
    is known. *)
Definition fill (r : Request) (replace : bool) (shoppingListId : string)
    : Response GenerateShoppingListResponse :=
  let itemsUpdated := 0%nat in
  (* Step 5 *)
  if replace && delete_error r then
    jsonError INTERNAL_ERROR "Failed to clear shopping list" 500 None
  else
  (* Step 6 *)
  if error (ingredients_answer r) then
    jsonError INTERNAL_ERROR "Failed to fetch recipe ingredients" 500 None
  else
  (* Steps 7 and 8 *)
  let rows :=
    itemsToInsert shoppingListId (now r)
      (combinedIngredients (data (ingredients_answer r))) in
  let inserted :=
    if (0 <? length rows)%nat then
      if error (insert_answer r rows) then None
      else Some (match data (insert_answer r rows) with
                 | Some l => l
                 | None => []
                 end)
    else Some [] in
  match inserted with
  | None =>
      jsonError INTERNAL_ERROR "Failed to add items to shopping list" 500 None
  | Some addedItems =>
      (* Steps 9 and 10 *)
      Ok200 {| id := shoppingListId;
               items_added := length addedItems;
               items_updated := itemsUpdated;
               items := addedItems |}
  end.

(** Steps 1 to 4: the error that ends the request, or the flag
    [replace_existing] and the id of the shopping list to fill. *)
Definition accept (r : Request)
    : Response GenerateShoppingListResponse + (bool * string) :=
  (* Step 1 *)
  match bearer_token (authorization r) with
  | None =>
      inl (jsonError AUTHENTICATION_ERROR
             "Missing or invalid authorization header" 401 None)
  | Some token =>
  match error (getUser r token), data (getUser r token) with
  | true, _ | _, None =>
      inl (jsonError AUTHENTICATION_ERROR "Invalid authentication token" 401 None)
  | false, Some user =>
  (* Step 2 *)
  match body r with
  | None => inl (jsonError VALIDATION_ERROR "Invalid JSON in request body" 400 None)
  | Some command =>
  match Command.recipe_ids command with
  | None | Some [] =>
      inl (jsonError VALIDATION_ERROR "recipe_ids must be a non-empty array" 400
             (Some "recipe_ids"))
  | Some ids =>
  if (50 <? length ids)%nat then
    inl (jsonError VALIDATION_ERROR
           "Cannot generate shopping list from more than 50 recipes at once" 400
           (Some "recipe_ids"))
  else
  match Command.replace_existing command with
  | VBool replace =>
  (* Step 3 *)
  match error (recipes_answer r), data (recipes_answer r) with
  | true, _ => inl (jsonError INTERNAL_ERROR "Failed to fetch recipes" 500 None)
  | false, None =>
      inl (jsonError NOT_FOUND "One or more recipes not found" 404 None)
  | false, Some recipes =>
  if negb (length recipes =? length ids)%nat then
    inl (jsonError NOT_FOUND "One or more recipes not found" 404 None)
  else
  let unauthorizedRecipes :=
    filter (fun rcp => negb (String.eqb (Owner.user_id rcp) user)) recipes in
  if (0 <? length unauthorizedRecipes)%nat then
    inl (jsonError AUTHORIZATION_ERROR
           "You can only generate shopping lists from your own recipes" 403 None)
  else
  (* Step 4 *)
  match shopping_list r with
  | inl e => inl e
  | inr shoppingListId => inr (replace, shoppingListId)
  end
  end
  | _ =>
      inl (jsonError VALIDATION_ERROR "replace_existing must be a boolean" 400
             (Some "replace_existing"))
  end end end end end.

(** The handler. *)
Definition POST (r : Request) : Response GenerateShoppingListResponse :=
  match accept r with
  | inl e => e
  | inr (replace, shoppingListId) => fill r replace shoppingListId
  end.

End Generate.

(* ================================================================== *)
(** * The specification's own notions, to compare the code with       *)
(* ================================================================== *)

Module Spec.

Import Js.
Local Open Scope string_scope.

(** "round-half-away-from-zero": the nearest integer, a tie going away
    from zero. *)
Definition round_half_away (x : Q) : Z :=
  if Qltb x 0 then (- Qfloor (- x + (1 # 2)))%Z else Qfloor (x + (1 # 2)).

(** "round2": round-half-away-from-zero to 2 decimal places. *)
Definition round2 (x : Q) : Q := inject_Z (round_half_away (x * 100)) / 100.

(** "normalize = lowercase + trim". *)
Definition normalize (s : string) : string := trim (toLowerCase s).

(** The grouping key as the specification words it:
    [normalize(ingredientName) + "::" + normalize(unit)]. *)
Definition grouping_key (ingredientName unit : string) : string :=
  normalize ingredientName ++ "::" ++ normalize unit.


(** "a finite number, 0 < desiredServings <= 1000". *)
Definition valid_desired_servings (v : value) : Prop :=
  exists q, v = VNumber (Fin q) /\ 0 < q /\ q <= 1000.

(** A quantity with at most two fraction digits, as a [numeric(10,2)]
    column stores it. *)
Definition two_decimals (q : Q) : Prop :=
  exists k : Z, q == inject_Z k / 100.

End Spec.

(* ================================================================== *)
(** * Sample data                                                      *)
(* ================================================================== *)

Module Sample.

Import Js Http.
Local Open Scope string_scope.

Definition num (n d : Z) : number := Fin (inject_Z n / inject_Z d).

(** ** Scaling *)

Definition scale_line (quantity : nullable_number) (display : option string)
    : Scale.Line.t :=
  {| Scale.Line.id := "ri-1";
     Scale.Line.quantity := quantity;
     Scale.Line.quantity_display := display;
     Scale.Line.unit := "cup";
     Scale.Line.order_index := 0;
     Scale.Line.ingredient_id := "ing-1";
     Scale.Line.ingredient_name := "flour" |}.

Definition recipe (servings : Z) : Scale.Recipe.t :=
  {| Scale.Recipe.id := "rec-1";
     Scale.Recipe.title := "Pancakes";
     Scale.Recipe.servings := of_Z servings;
     Scale.Recipe.is_public := true;
     Scale.Recipe.user_id := "user-1" |}.

(** An anonymous request to scale a public recipe of [servings]
    servings to [desired] servings. *)
Definition scale_request (servings : Z) (desired : value)
    (lines : option (list Scale.Line.t)) : Scale.Request :=
  {| Scale.params_id := Some "rec-1";
     Scale.body := Some {| Scale.Command.desired_servings := desired |};
     Scale.authorization := None;
     Scale.getUser := fun _ => None;
     Scale.recipe_answer := answered (recipe servings);
     Scale.ingredients_answer := {| data := lines; error := false |} |}.

(** ** Shopping lists *)

Definition line (recipe_id name unit : string) (quantity : nullable_number)
    : Generate.Line.t :=
  {| Generate.Line.recipe_id := recipe_id;
     Generate.Line.quantity := quantity;
     Generate.Line.unit := unit;
     Generate.Line.ingredient_id := "ing-" ++ name;
     Generate.Line.ingredient_name := name |}.

Definition stored (recipe_id name unit : string) (quantity : nullable_number)
    (display : option string) : Generate.Stored.t :=
  {| Generate.Stored.id := "ri-" ++ recipe_id ++ "-" ++ name;
     Generate.Stored.recipe_id := recipe_id;
     Generate.Stored.ingredient_id := "ing-" ++ name;
     Generate.Stored.ingredient_name := name;
     Generate.Stored.quantity := quantity;
     Generate.Stored.quantity_display := display;
     Generate.Stored.unit := unit;
     Generate.Stored.order_index := 0;
     Generate.Stored.notes := None |}.

Definition flour_cup : Generate.Line.t :=
  line "rec-A" "Flour" "cup" (Some (of_Z 2)).

Definition flour_cup_spaced : Generate.Line.t :=
  line "rec-B" " flour " " cup" (Some (of_Z 1)).

Definition salt_tsp : Generate.Stored.t :=
  stored "rec-A" "salt" "tsp" (Some (of_Z 1)) None.

Definition salt_pinch : Generate.Stored.t :=
  stored "rec-B" "salt" "tsp" None (Some "a pinch").

(** The same line with a number in the [NOT NULL] column. *)
Definition salt_pinch_numbered : Generate.Stored.t :=
  stored "rec-B" "salt" "tsp" (Some (of_Z 1)) (Some "a pinch").

(** A request of user [user-1] for a list from recipe [rec-A], which
    the user owns; the shopping list [list-1] exists. *)
Definition generate_request (lines : option (list Generate.Line.t))
    : Generate.Request :=
  {| Generate.authorization := Some "Bearer token-1";
     Generate.getUser := fun _ => answered "user-1";
     Generate.body :=
       Some {| Generate.Command.recipe_ids := Some ["rec-A"];
               Generate.Command.replace_existing := VBool false |};
     Generate.recipes_answer :=
       answered [ {| Generate.Owner.id := "rec-A";
                     Generate.Owner.user_id := "user-1" |} ];
     Generate.list_answer :=
       {| Generate.list_data := Some "list-1"; Generate.list_error := None |};
     Generate.create_answer := {| data := None; error := false |};
     Generate.delete_error := false;
     Generate.ingredients_answer := {| data := lines; error := false |};
     Generate.insert_answer := fun _ => {| data := None; error := true |};
     Generate.now := "2025-10-25T00:00:00.000Z" |}.

End Sample.

(* ================================================================== *)
(** * Notions used to state further properties                         *)
(* ================================================================== *)

Module Derived.

Import Js Http.
Local Open Scope string_scope.

(** A string that [trim] leaves as it is. *)
Definition trimmed (s : string) : Prop := trim s = s.

(** A string that does not start with white space. *)
Definition starts_clean (s : string) : Prop :=
  match s with
  | EmptyString => True
  | String c _ => is_space c = false
  end.

(** A string without the character [':']. *)
Fixpoint no_colon (s : string) : bool :=
  match s with
  | EmptyString => true
  | String c r => negb (Ascii.eqb c ":"%char) && no_colon r
  end.

(** The lines of a key, in the order of the input. *)
Definition lines_of (k : string) (lines : list Generate.Line.t)
    : list Generate.Line.t :=
  filter (fun ri => String.eqb (Generate.key_of ri) k) lines.

(** The sum the handler accumulates: the further quantities added one
    after the other to a first one. *)
Definition sum_from (start : number) (rest : list Generate.Line.t) : number :=
  fold_left (fun acc ri => add acc (to_number (Generate.Line.quantity ri)))
            rest start.

(** The recipes collected for an item: the ids of the further lines
    added one after the other to the first one. *)
Definition recipes_from (start : list string) (rest : list Generate.Line.t)
    : list string :=
  fold_left (fun acc ri => Generate.set_add (Generate.Line.recipe_id ri) acc)
            rest start.

(** The object the map holds for a key whose lines are [first :: rest]. *)
Definition grouped (first : Generate.Line.t) (rest : list Generate.Line.t)
    : Generate.Combined.t :=
  {| Generate.Combined.name := Generate.Line.ingredient_name first;
     Generate.Combined.quantity :=
       match rest with
       | [] => Generate.Line.quantity first
       | _ => Some (sum_from (to_number (Generate.Line.quantity first)) rest)
       end;
     Generate.Combined.unit := Generate.Line.unit first;
     Generate.Combined.recipe_ids :=
       recipes_from [Generate.Line.recipe_id first] rest |}.

(** The status each error code is sent with. *)
Definition status_of (c : ApiErrorCode) : Z :=
  match c with
  | VALIDATION_ERROR => 400
  | AUTHENTICATION_ERROR => 401
  | AUTHORIZATION_ERROR => 403
  | NOT_FOUND => 404
  | CONFLICT => 409
  | RATE_LIMIT_EXCEEDED => 429
  | INTERNAL_ERROR => 500
  end.

(** A response that, when it is an error, is sent with the status of
    its code and names a field only for a validation error, the field
    being one of [fields]. *)
Definition lawful {A : Type} (fields : list string) (resp : Response A) : Prop :=
  match resp with
  | ErrorResponse status e =>
      status = status_of (code e) /\
      match field e with
      | None => True
      | Some f => code e = VALIDATION_ERROR /\ In f fields
      end
  | Ok200 _ => True
  end.

(** The user a scale request is authenticated as, if any (step 3). *)
Definition authenticated_user (r : Scale.Request) : option string :=
  match bearer_token (Scale.authorization r) with
  | Some token => Scale.getUser r token
  | None => None
  end.

End Derived.

(* ================================================================== *)
(** * The arithmetic of the scale handler on binary64 numbers          *)
(* ================================================================== *)

(** JavaScript numbers as they are: IEEE 754 binary64, every operation
    rounded to nearest, ties to even. *)
Module B64.

Definition prec : Z := 53.
Definition emax : Z := 1024.

Definition number : Type := spec_float.

(** [a * b] and [a / b]. *)
Definition mul (a b : number) : number := SFmul prec emax a b.
Definition div (a b : number) : number := SFdiv prec emax a b.

(** The number an integer below 2^53 in magnitude is. *)
Definition of_Z (z : Z) : number := binary_normalize prec emax z 0 false.

(** The number a decimal text with two fraction digits is read as: the
    binary64 number nearest to [n / 100]. *)
Definition cents (n : Z) : number := div (of_Z n) (of_Z 100).

(** [Math.round]: the integer nearest to the exact value of [a], a tie
    going towards plus infinity; a result of zero keeps the sign of
    [a]. *)
Definition Math_round (a : number) : number :=
  match a with
  | S754_finite s m e =>
      if (0 <=? e)%Z then a
      else
        let n := cond_Zopp s (Z.pos m) in
        let k := ((2 * n + 2 ^ (- e)) / 2 ^ (1 - e))%Z in
        if (k =? 0)%Z then S754_zero s else of_Z k
  | _ => a
  end.

(** The integer a number is, when it is one. *)
Definition to_Z (a : number) : option Z :=
  match a with
  | S754_zero _ => Some 0%Z
  | S754_finite s m e =>
      let n := cond_Zopp s (Z.pos m) in
      if (0 <=? e)%Z then Some (n * 2 ^ e)%Z
      else if (n mod 2 ^ (- e) =? 0)%Z then Some (n / 2 ^ (- e))%Z
      else None
  | _ => None
  end.

(** Step 7: [body.desired_servings / recipe.servings]. *)
Definition scalingFactor (desired_servings servings : number) : number :=
  div desired_servings servings.

(** [Math.round(x * 100)], the number of hundredths that steps 8 and 9
    then divide by 100. *)
Definition rounded_hundredths (x : number) : number :=
  Math_round (mul x (of_Z 100)).

(** Step 8: [Math.round(ri.quantity * scalingFactor * 100) / 100]. *)
Definition roundedQuantity (quantity factor : number) : number :=
  div (rounded_hundredths (mul quantity factor)) (of_Z 100).


(** Whether the hundredths step 8 computes for the quantity [k / 100]
    of a recipe of [s] servings scaled to [d] servings lie within a half
    of the exact value [k * d / s]. *)
Definition hundredths_close (k s d : Z) : bool :=
  match to_Z (rounded_hundredths
                (mul (cents k) (scalingFactor (of_Z d) (of_Z s)))) with
  | Some j =>
      Qle_bool (Qabs (inject_Z j - inject_Z (k * d) / inject_Z s)) (1 # 2)
  | None => false
  end.

(** The integers from [lo], [n] of them. *)
Fixpoint range (lo : Z) (n : nat) : list Z :=
  match n with
  | O => []
  | S m => lo :: range (lo + 1) m
  end.

End B64.

(* ================================================================== *)
(** * Facts about the JavaScript fragment                              *)
(* ================================================================== *)

Module JsFacts.

Import Js.
Local Open Scope string_scope.

Lemma Qltb_false (a b : Q) : b <= a -> Qltb a b = false.
Proof.
  intro H. unfold Qltb. apply Qle_bool_iff in H. now rewrite H.
Qed.

Lemma Qeq_bool_pos (q : Q) : 0 < q -> Qeq_bool q 0 = false.
Proof.
  intro H. destruct (Qeq_bool q 0) eqn:E; [|reflexivity].
  apply Qeq_bool_iff in E. rewrite E in H. exfalso. exact (Qlt_irrefl _ H).
Qed.

Lemma num_eq_refl (a : number) : num_eq a a.
Proof. destruct a; simpl; auto. reflexivity. Qed.

(** Addition of numbers is commutative. *)
Lemma add_comm (a b : number) : num_eq (add a b) (add b a).
Proof.
  destruct a, b; simpl; auto. apply Qplus_comm.
Qed.

(** The floor of an integer and a half is that integer. *)
Lemma Qfloor_half (k : Z) (x : Q) :
  x == inject_Z k -> Qfloor (x + (1 # 2)) = k.
Proof.
  intro H.
  assert (E : x + (1 # 2) == (2 * k + 1 # 2)).
  { rewrite H. unfold Qeq, inject_Z, Qplus. cbn [Qnum Qden Pos.mul]. lia. }
  rewrite (Qfloor_comp _ _ E). unfold Qfloor.
  symmetry. apply (Z.div_unique _ _ _ 1); lia.
Qed.

(** A division by a number that is not zero, and a product. *)
Lemma div_fin (x y : Q) : Qeq_bool y 0 = false -> div (Fin x) (Fin y) = Fin (x / y).
Proof. intro H. simpl. now rewrite H. Qed.



End JsFacts.

(* ================================================================== *)
(** * Properties of the scale handler                                  *)
(* ================================================================== *)

Module ScaleProps.

Import Js Http Scale JsFacts.
Local Open Scope string_scope.

(** ** Rounding *)

Lemma round_to_cents_fin (x : Q) :
  round_to_cents (Fin x) =
  Fin (inject_Z (Qfloor (x * 100 + (1 # 2))) / 100).
Proof. reflexivity. Qed.

(** Below zero a tie goes up, not away from zero: -0.125 becomes
    -0.12 where round2 gives -0.13. *)
Remark round_to_cents_negative_tie :
  num_eq (round_to_cents (Fin (-1 # 8))) (Fin (-12 # 100)) /\
  Spec.round2 (-1 # 8) == -13 # 100.
Proof. split; vm_compute; reflexivity. Qed.

(** A number that has two decimals is left as it is. *)
Lemma round_to_cents_two_decimals (x q : Q) :
  x == q -> Spec.two_decimals q -> num_eq (round_to_cents (Fin x)) (Fin q).
Proof.
  intros E [k Hk]. rewrite round_to_cents_fin. cbn [num_eq].
  assert (Hx : x * 100 == inject_Z k).
  { rewrite E, Hk. field. }
  rewrite (Qfloor_half Hx). now rewrite Hk.
Qed.

(** ** Step 2 *)

Lemma check_desired_servings_spec (v : value) :
  (Spec.valid_desired_servings v /\
   exists q, v = VNumber (Fin q) /\ check_desired_servings v = inr (Fin q)) \/
  (~ Spec.valid_desired_servings v /\
   exists msg, check_desired_servings v = inl (desired_servings_error msg)).
Proof.
  assert (Hno : forall w, (forall q, w <> VNumber (Fin q)) ->
                          ~ Spec.valid_desired_servings w).
  { intros w Hw (q & E & _). exact (Hw q E). }
  destruct v as [| |b|n|s|];
    try (right; split; [apply Hno; discriminate | eexists; reflexivity]).
  - right. split; [apply Hno; discriminate|].
    destruct b; eexists; reflexivity.
  - destruct n as [| | |q];
      try (right; split; [apply Hno; discriminate | eexists; reflexivity]).
    unfold check_desired_servings. cbn [truthy is_number number_truthy negb orb le gt].
    destruct (Qeq_bool q 0) eqn:E0; cbn [negb orb].
    { right. split; [|eexists; reflexivity].
      intros (q' & E & Hpos & _). injection E as <-.
      apply Qeq_bool_iff in E0. rewrite E0 in Hpos. exact (Qlt_irrefl _ Hpos). }
    destruct (Qle_bool q 0) eqn:E1.
    { right. split; [|eexists; reflexivity].
      intros (q' & E & Hpos & _). injection E as <-.
      apply Qle_bool_iff in E1. exact (Qlt_not_le _ _ Hpos E1). }
    unfold of_Z, Qltb. destruct (Qle_bool q (inject_Z 1000)) eqn:E2; cbn [negb].
    + left. apply Qle_bool_iff in E2.
      assert (Hpos : 0 < q).
      { apply Qnot_le_lt. intro H. apply Qle_bool_iff in H. congruence. }
      split; [exists q; auto | exists q; auto].
    + right. split; [|eexists; reflexivity].
      intros (q' & E & _ & Hle). injection E as <-.
      apply Qle_bool_iff in Hle. change (inject_Z 1000) with 1000 in E2. congruence.
  - right. split; [apply Hno; discriminate|].
    destruct s; eexists; reflexivity.
Qed.

Lemma check_desired_servings_inr (v : value) (n : number) :
  check_desired_servings v = inr n ->
  exists q, v = VNumber (Fin q) /\ n = Fin q /\ 0 < q /\ q <= 1000.
Proof.
  intro H. destruct (check_desired_servings_spec v) as [[Hv (q & E & C)]|[_ (msg & C)]].
  - rewrite C in H. injection H as <-. destruct Hv as (q' & E' & Hpos & Hle).
    rewrite E in E'. injection E' as <-. exists q. auto.
  - rewrite C in H. discriminate.
Qed.

(** ** Steps 1 to 6 *)

(** A request that is accepted carries a valid [desired_servings]. *)
Lemma accept_inr (r : Request) (recipe : Recipe.t) (desired : number) :
  accept r = inr (recipe, desired) ->
  exists c q, body r = Some c /\
    Command.desired_servings c = VNumber (Fin q) /\
    desired = Fin q /\ 0 < q /\ q <= 1000 /\
    data (recipe_answer r) = Some recipe.
Proof.
  unfold accept. destruct (id_missing (params_id r)); [discriminate|].
  destruct (body r) as [c|]; [|discriminate].
  destruct (check_desired_servings (Command.desired_servings c)) as [e|n] eqn:C;
    [discriminate|].
  destruct (error (recipe_answer r)); [discriminate|].
  destruct (data (recipe_answer r)) as [rcp|]; [|discriminate].
  match goal with |- context [if ?b then _ else _] => destruct b end;
    [discriminate|].
  intro H. injection H as <- <-.
  destruct (check_desired_servings_inr _ C) as (q & E & -> & Hpos & Hle).
  exists c, q. auto 10.
Qed.

(** Every error that follows step 2 names no field. *)
Lemma POST_error_after_step_2 (r : Request) (c : Command.t) (n : number)
    (status : Z) (e : ApiError) :
  id_missing (params_id r) = false ->
  body r = Some c ->
  check_desired_servings (Command.desired_servings c) = inr n ->
  POST r = ErrorResponse status e -> field e = None.
Proof.
  intros Hid Hb Hc. unfold POST, accept. rewrite Hid, Hb, Hc.
  destruct (error (recipe_answer r)).
  { intro H. injection H as _ <-. reflexivity. }
  destruct (data (recipe_answer r)) as [rcp|].
  2:{ intro H. injection H as _ <-. reflexivity. }
  match goal with |- context [if ?b then _ else _] => destruct b end.
  { intro H. injection H as _ <-. reflexivity. }
  destruct (error (ingredients_answer r)); [|discriminate].
  intro H. injection H as _ <-. reflexivity.
Qed.

(** ** The scenarios of the specification *)

Example scale_4_to_8_two_cups :
  map (fun out => (num_eqb (Scaled.scaled_quantity out) (of_Z 4),
                   Scaled.quantity_display out))
      (scaled_ingredients
         (scale (of_Z 4) (of_Z 8) (Some [Sample.scale_line (Some (of_Z 2)) None])))
  = [(true, "4")].
Proof. reflexivity. Qed.

Example scale_4_to_6_one_cup :
  map (fun out => (num_eqb (Scaled.scaled_quantity out) (Fin (3 # 2)),
                   Scaled.quantity_display out))
      (scaled_ingredients
         (scale (of_Z 4) (of_Z 6) (Some [Sample.scale_line (Some (of_Z 1)) None])))
  = [(true, "1.5")].
Proof. reflexivity. Qed.

Example a_pinch_passes_through :
  map (fun out => (Scaled.quantity_display out, Scaled.notes out))
      (scaled_ingredients
         (scale (of_Z 4) (of_Z 6) (Some [Sample.scale_line None (Some "a pinch")])))
  = [("a pinch", Some "*Not scaled - adjust to taste")].
Proof. reflexivity. Qed.

(** ** The scaled lines *)

(** C7, as amended. For a recipe of [s] servings with [0 < s <= 1000],
    the request to scale it to [s] servings is accepted by step 2, the
    reported scaling_factor is 1, and every line that holds a numeric
    quantity of at most two decimals keeps it: scaled_quantity equals
    original_quantity. *)
Theorem scaling_identity (s : Q) (lines : list Line.t) :
  0 < s -> s <= 1000 ->
  check_desired_servings (VNumber (Fin s)) = inr (Fin s) /\
  num_eq (scaling_factor (scale (Fin s) (Fin s) (Some lines))) (Fin 1) /\
  Forall2
    (fun ri out =>
       forall q, Line.quantity ri = Some (Fin q) -> Spec.two_decimals q ->
         Scaled.original_quantity out = Some (Fin q) /\
         num_eq (Scaled.scaled_quantity out) (Fin q))
    lines (scaled_ingredients (scale (Fin s) (Fin s) (Some lines))).
Proof.
  intros Hs Hle.
  assert (Hs0 : ~ s == 0).
  { intro E. rewrite E in Hs. exact (Qlt_irrefl _ Hs). }
  assert (Hf : div (Fin s) (Fin s) = Fin (s / s))
    by (apply div_fin, Qeq_bool_pos, Hs).
  split; [|split].
  - destruct (check_desired_servings_spec (VNumber (Fin s)))
      as [[_ (q & E & C)]|[Hn _]].
    + injection E as <-. exact C.
    + exfalso. apply Hn. exists s. auto.
  - unfold scale. cbn [scaling_factor]. rewrite Hf.
    apply round_to_cents_two_decimals.
    + now field.
    + exists 100%Z. reflexivity.
  - unfold scale. cbn [scaled_ingredients]. rewrite Hf.
    induction lines as [|ri rest IH]; cbn [map]; constructor; [|exact IH].
    intros q Eq Hq. unfold scale_line.
    cbn [Scaled.original_quantity Scaled.scaled_quantity].
    rewrite Eq. split; [reflexivity|]. cbn [to_number mul].
    apply round_to_cents_two_decimals; [now field | exact Hq].
Qed.

(** Witness for C7: a recipe of 4 servings with 1.15 cups. *)
Lemma scaling_identity_witness :
  check_desired_servings (VNumber (Fin 4)) = inr (Fin 4) /\
  num_eq
    (scaling_factor
       (scale (Fin 4) (Fin 4)
          (Some [Sample.scale_line (Some (Sample.num 115 100)) None])))
    (Fin 1) /\
  Forall2
    (fun ri out =>
       forall q, Line.quantity ri = Some (Fin q) -> Spec.two_decimals q ->
         Scaled.original_quantity out = Some (Fin q) /\
         num_eq (Scaled.scaled_quantity out) (Fin q))
    [Sample.scale_line (Some (Sample.num 115 100)) None]
    (scaled_ingredients
       (scale (Fin 4) (Fin 4)
          (Some [Sample.scale_line (Some (Sample.num 115 100)) None]))).
Proof.
  apply (@scaling_identity 4); [reflexivity | discriminate].
Defined.

(** C7 as stated fails: a recipe of 2000 servings has [servings > 0],
    and the request to scale it to 2000 servings is refused by step 2,
    so that no scaling_factor is reported. *)
Lemma servings_above_1000_are_refused :
  gt (Recipe.servings (Sample.recipe 2000)) (Fin 0) = true /\
  POST (Sample.scale_request 2000 (VNumber (of_Z 2000))
          (Some [Sample.scale_line (Some (of_Z 2)) None])) =
  desired_servings_error "desired_servings must not exceed 1000".
Proof. split; reflexivity. Qed.

(** ** Lines without a quantity *)

(** C2 as stated fails: a line with neither a quantity nor a display
    text does not make the request fail; it is answered with status 200
    and the line scaled as 0, printed "0". *)
Lemma missing_quantity_is_scaled_as_zero :
  Line.quantity (Sample.scale_line None None) = None /\
  has_display (Line.quantity_display (Sample.scale_line None None)) = false /\
  match POST (Sample.scale_request 4 (VNumber (of_Z 8))
                (Some [Sample.scale_line None None])) with
  | Ok200 dto =>
      map (fun out => (num_eqb (Scaled.scaled_quantity out) (Fin 0),
                       Scaled.quantity_display out))
          (scaled_ingredients dto) = [(true, "0")]
  | ErrorResponse _ _ => False
  end.
Proof. repeat split; reflexivity. Qed.

(** C2, as amended. The handler looks at no line before it scales: a
    request accepted by steps 1 to 5 whose lines are fetched is answered
    with status 200 whatever the lines hold, and, the recipe having
    [s > 0] servings, a line with neither a quantity nor a display text
    is emitted with original_quantity [null], scaled_quantity 0,
    quantity_display "0" and no note. *)
Theorem line_without_quantity (r : Request) (recipe : Recipe.t)
    (desired : number) (s : Q) :
  accept r = inr (recipe, desired) ->
  error (ingredients_answer r) = false ->
  Recipe.servings recipe = Fin s -> 0 < s ->
  exists dto,
    POST r = Ok200 dto /\
    Forall2
      (fun ri out =>
         Line.quantity ri = None ->
         has_display (Line.quantity_display ri) = false ->
         Scaled.original_quantity out = None /\
         num_eq (Scaled.scaled_quantity out) (Fin 0) /\
         Scaled.quantity_display out = "0" /\
         Scaled.notes out = None)
      (match data (ingredients_answer r) with Some l => l | None => [] end)
      (scaled_ingredients dto).
Proof.
  intros Ha He Hserv Hs.
  destruct (accept_inr _ Ha) as (c & d & _ & _ & -> & Hd & _ & _).
  unfold POST. rewrite Ha, He, Hserv. eexists. split; [reflexivity|].
  unfold scale. cbn [scaled_ingredients].
  rewrite div_fin by (apply Qeq_bool_pos, Hs).
  induction (match data (ingredients_answer r) with Some l => l | None => [] end)
    as [|ri rest IH]; cbn [map]; constructor; [|exact IH].
  intros Hq Hdisp. unfold scale_line.
  cbn [Scaled.original_quantity Scaled.scaled_quantity
       Scaled.quantity_display Scaled.notes].
  rewrite Hq. cbn [to_number mul].
  assert (Hfloor : Qfloor (0 * (d / s) * 100 + (1 # 2)) = 0%Z).
  { apply Qfloor_half. unfold Qeq. simpl. lia. }
  rewrite round_to_cents_fin, Hfloor.
  split; [reflexivity|]. split; [reflexivity|].
  destruct (Line.quantity_display ri) as [[|a t]|]; try discriminate;
    split; reflexivity.
Qed.

(** Witness for C2: 4 servings scaled to 8, one line without quantity. *)
Lemma line_without_quantity_witness :
  exists dto,
    POST (Sample.scale_request 4 (VNumber (of_Z 8))
            (Some [Sample.scale_line None None])) = Ok200 dto /\
    Forall2
      (fun ri out =>
         Line.quantity ri = None ->
         has_display (Line.quantity_display ri) = false ->
         Scaled.original_quantity out = None /\
         num_eq (Scaled.scaled_quantity out) (Fin 0) /\
         Scaled.quantity_display out = "0" /\
         Scaled.notes out = None)
      [Sample.scale_line None None]
      (scaled_ingredients dto).
Proof.
  apply (@line_without_quantity
           (Sample.scale_request 4 (VNumber (of_Z 8))
              (Some [Sample.scale_line None None]))
           (Sample.recipe 4) (of_Z 8) 4); reflexivity.
Defined.

(** ** Display texts and notes *)




(** ** Validation of desired_servings *)

(** C6. For a request with a recipe id and a JSON body, the handler
    answers with an error that names the field desired_servings exactly
    when the member is not a finite number [q] with [0 < q <= 1000]
    (missing, not a number, NaN, infinite, [<= 0] or [> 1000]); the
    error is then a VALIDATION_ERROR of status 400. For a valid member
    no error of the handler names that field. *)
Theorem desired_servings_validation (r : Request) (c : Command.t) :
  id_missing (params_id r) = false ->
  body r = Some c ->
  ((exists status e,
      POST r = ErrorResponse status e /\ field e = Some "desired_servings") <->
   ~ Spec.valid_desired_servings (Command.desired_servings c)) /\
  (~ Spec.valid_desired_servings (Command.desired_servings c) ->
   exists msg, POST r = desired_servings_error msg).
Proof.
  intros Hid Hb.
  assert (Hbad : ~ Spec.valid_desired_servings (Command.desired_servings c) ->
                 exists msg, POST r = desired_servings_error msg).
  { intro Hn.
    destruct (check_desired_servings_spec (Command.desired_servings c))
      as [[Hv _]|[_ (msg & C)]]; [contradiction|].
    exists msg. unfold POST, accept. now rewrite Hid, Hb, C. }
  split; [split|exact Hbad].
  - intros (status & e & HP & Hf) Hv.
    destruct (check_desired_servings_spec (Command.desired_servings c))
      as [[_ (q & _ & C)]|[Hn _]]; [|contradiction].
    rewrite (POST_error_after_step_2 r Hid Hb C HP) in Hf. discriminate.
  - intro Hn. destruct (Hbad Hn) as (msg & HP).
    eexists _, _. split; [exact HP|reflexivity].
Qed.

(** Witness for C6: a request to scale to 0 servings. *)
Lemma desired_servings_validation_witness :
  ((exists status e,
      POST (Sample.scale_request 4 (VNumber (of_Z 0)) (Some [])) =
        ErrorResponse status e /\
      field e = Some "desired_servings") <->
   ~ Spec.valid_desired_servings (VNumber (of_Z 0))) /\
  (~ Spec.valid_desired_servings (VNumber (of_Z 0)) ->
   exists msg,
     POST (Sample.scale_request 4 (VNumber (of_Z 0)) (Some [])) =
       desired_servings_error msg).
Proof.
  apply (@desired_servings_validation
           (Sample.scale_request 4 (VNumber (of_Z 0)) (Some []))
           {| Command.desired_servings := VNumber (of_Z 0) |});
    reflexivity.
Defined.

(** ** Recipes without lines *)

(** C10. A recipe without ingredient lines, whether the query answers
    an empty list or [null], is scaled like any other: a request
    accepted by steps 1 to 5 is answered with status 200 and an empty
    list of scaled_ingredients. *)
Theorem recipe_without_lines (r : Request) (recipe : Recipe.t)
    (desired : number) :
  accept r = inr (recipe, desired) ->
  error (ingredients_answer r) = false ->
  data (ingredients_answer r) = None \/ data (ingredients_answer r) = Some [] ->
  POST r =
  Ok200 {| original_servings := Recipe.servings recipe;
           desired_servings := desired;
           scaling_factor := round_to_cents (div desired (Recipe.servings recipe));
           scaled_ingredients := [] |}.
Proof.
  intros Ha He Hd. unfold POST. rewrite Ha, He.
  destruct Hd as [-> | ->]; reflexivity.
Qed.

(** Witness for C10: the query for the lines answers [null]. *)
Lemma recipe_without_lines_witness :
  POST (Sample.scale_request 4 (VNumber (of_Z 8)) None) =
  Ok200 {| original_servings := of_Z 4;
           desired_servings := of_Z 8;
           scaling_factor := round_to_cents (div (of_Z 8) (of_Z 4));
           scaled_ingredients := [] |}.
Proof.
  apply (@recipe_without_lines
           (Sample.scale_request 4 (VNumber (of_Z 8)) None)
           (Sample.recipe 4) (of_Z 8));
    [reflexivity | reflexivity | left; reflexivity].
Defined.

End ScaleProps.

(* ================================================================== *)
(** * Properties of the shopping-list handler                          *)
(* ================================================================== *)

Module GenerateProps.

Import Js Http Generate JsFacts.
Local Open Scope string_scope.

(** ** The map of step 7 *)

Lemma has_In (k : string) (m : Map) : has k m = true <-> In k (keys m).
Proof.
  induction m as [|[k' v] m IH]; cbn [has keys map fst In].
  - split; [discriminate|contradiction].
  - rewrite orb_true_iff, String.eqb_eq. unfold keys in IH. rewrite IH.
    split; intros [H|H]; auto.
Qed.

Lemma keys_modify (k : string) (f : Combined.t -> Combined.t) (m : Map) :
  keys (modify k f m) = keys m.
Proof.
  induction m as [|[k' v] m IH]; [reflexivity|]. cbn [modify].
  destruct (String.eqb k k'); [reflexivity|].
  unfold keys in *. cbn [map fst]. now rewrite IH.
Qed.

Lemma keys_combine (m : Map) (ri : Line.t) :
  keys (combine m ri) =
  if has (key_of ri) m then keys m else (keys m ++ [key_of ri])%list.
Proof.
  unfold combine. destruct (has (key_of ri) m).
  - apply keys_modify.
  - unfold set_new, keys. now rewrite map_app.
Qed.

(** The keys of the map stay distinct, and a line adds its key to them. *)
Lemma fold_combine_keys (lines : list Line.t) (m : Map) :
  NoDup (keys m) ->
  NoDup (keys (fold_left combine lines m)) /\
  forall k, In k (keys (fold_left combine lines m)) <->
            In k (keys m) \/ In k (map key_of lines).
Proof.
  revert m. induction lines as [|ri rest IH]; intros m Hm; cbn [fold_left map In].
  - split; [exact Hm|]. intro k. tauto.
  - assert (Hm' : NoDup (keys (combine m ri))).
    { rewrite keys_combine. destruct (has (key_of ri) m) eqn:E; [exact Hm|].
      apply NoDup_app; [exact Hm | repeat constructor; intros [] | ].
      intros k Hk [<-|[]]. apply has_In in Hk. congruence. }
    destruct (IH _ Hm') as [Hnd Hin]. split; [exact Hnd|].
    intro k. rewrite Hin, keys_combine.
    destruct (has (key_of ri) m) eqn:E.
    + apply has_In in E. split; intros [H|H]; auto.
      * destruct H as [<-|H]; auto.
    + rewrite in_app_iff. cbn [In]. tauto.
Qed.

(** The map of two lines. *)
Lemma combined_pair (a b : Line.t) :
  combinedIngredients (Some [a; b]) =
  if String.eqb (key_of b) (key_of a)
  then [(key_of a, merged b (first_seen a))]
  else [(key_of a, first_seen a); (key_of b, first_seen b)].
Proof.
  unfold combinedIngredients. cbn [fold_left].
  unfold combine at 2. cbn [has]. unfold set_new. cbn [app].
  unfold combine. cbn [has]. rewrite orb_false_r.
  destruct (String.eqb (key_of b) (key_of a)) eqn:E.
  - cbn [modify]. now rewrite E.
  - reflexivity.
Qed.

(** ** The scenarios of the specification *)

Example basic_sum :
  map (fun i => (Insert.name i, Insert.unit i,
                 num_eqb (Insert.quantity i) (of_Z 3)))
      (aggregate "list-1" "now"
         [Sample.line "rec-A" "flour" "cup" (Some (of_Z 2));
          Sample.line "rec-B" "flour" "cup" (Some (of_Z 1))])
  = [("flour", "cup", true)].
Proof. reflexivity. Qed.

Example unit_sensitive_grouping :
  map (fun i => (Insert.name i, Insert.unit i))
      (aggregate "list-1" "now"
         [Sample.line "rec-A" "milk" "cup" (Some (of_Z 2));
          Sample.line "rec-B" "milk" "ml" (Some (of_Z 200))])
  = [("milk", "cup"); ("milk", "ml")].
Proof. reflexivity. Qed.

(** ** The grouping key *)

(** C1 as stated fails: the unit is lower-cased and not trimmed. Two
    lines equal up to case and surrounding white space in name and
    unit get different keys, the second one not the key of the
    specification, and make two items. *)
Lemma unit_is_not_trimmed :
  Spec.normalize (Line.ingredient_name Sample.flour_cup) =
    Spec.normalize (Line.ingredient_name Sample.flour_cup_spaced) /\
  Spec.normalize (Line.unit Sample.flour_cup) =
    Spec.normalize (Line.unit Sample.flour_cup_spaced) /\
  key_of Sample.flour_cup_spaced <>
    Spec.grouping_key (Line.ingredient_name Sample.flour_cup_spaced)
      (Line.unit Sample.flour_cup_spaced) /\
  length (aggregate "list-1" "2025-10-25T00:00:00.000Z"
            [Sample.flour_cup; Sample.flour_cup_spaced]) = 2%nat.
Proof. repeat split; try reflexivity. discriminate. Qed.

(** C1, as amended. The grouping key of a line is its ingredient name
    lower-cased and trimmed, then "::", then its unit lower-cased (the
    unit is not trimmed). Among any lines the items correspond one to
    one to the distinct keys; and two lines whose names are equal up to
    case and surrounding white space and whose units are equal up to
    case merge into a single item, which carries the name and unit of
    the first line and the rounded sum of the two quantities. *)
Theorem lines_with_equal_key_merge (shoppingListId now : string)
    (a b : Line.t) (lines : list Line.t) :
  normalizeIngredientName (Line.ingredient_name a) =
    normalizeIngredientName (Line.ingredient_name b) ->
  toLowerCase (Line.unit a) = toLowerCase (Line.unit b) ->
  key_of a =
    trim (toLowerCase (Line.ingredient_name a)) ++ "::" ++
    toLowerCase (Line.unit a) /\
  key_of a = key_of b /\
  aggregate shoppingListId now [a; b] =
    [ {| Insert.shopping_list_id := shoppingListId;
         Insert.source_recipe_id := None;
         Insert.name := Line.ingredient_name a;
         Insert.quantity :=
           round_to_cents
             (add (to_number (Line.quantity a)) (to_number (Line.quantity b)));
         Insert.unit := Line.unit a;
         Insert.category := None;
         Insert.is_checked := false;
         Insert.created_at := now |} ] /\
  NoDup (keys (combinedIngredients (Some lines))) /\
  (forall k, In k (keys (combinedIngredients (Some lines))) <->
             In k (map key_of lines)) /\
  length (aggregate shoppingListId now lines) =
    length (keys (combinedIngredients (Some lines))).
Proof.
  intros Hn Hu.
  assert (Hk : key_of a = key_of b) by (unfold key_of; now rewrite Hn, Hu).
  split; [reflexivity|]. split; [exact Hk|]. split; [|split; [|split]].
  - unfold aggregate. rewrite combined_pair, <- Hk, String.eqb_refl.
    reflexivity.
  - apply (@fold_combine_keys lines []). constructor.
  - intro k.
    destruct (@fold_combine_keys lines []) as [_ H]; [constructor|].
    unfold combinedIngredients. rewrite H. cbn [keys map In]. tauto.
  - unfold aggregate, itemsToInsert, values, keys. now rewrite !length_map.
Qed.

(** Witness for C1: "Flour" in "cup" twice, up to case and the white
    space around the name. *)
Lemma lines_with_equal_key_merge_witness :
  key_of Sample.flour_cup =
    trim (toLowerCase (Line.ingredient_name Sample.flour_cup)) ++ "::" ++
    toLowerCase (Line.unit Sample.flour_cup) /\
  key_of Sample.flour_cup = key_of (Sample.line "rec-B" " flour " "CUP" None) /\
  aggregate "list-1" "now"
    [Sample.flour_cup; Sample.line "rec-B" " flour " "CUP" None] =
    [ {| Insert.shopping_list_id := "list-1";
         Insert.source_recipe_id := None;
         Insert.name := Line.ingredient_name Sample.flour_cup;
         Insert.quantity :=
           round_to_cents
             (add (to_number (Line.quantity Sample.flour_cup))
                  (to_number None));
         Insert.unit := Line.unit Sample.flour_cup;
         Insert.category := None;
         Insert.is_checked := false;
         Insert.created_at := "now" |} ] /\
  NoDup (keys (combinedIngredients (Some [Sample.flour_cup_spaced]))) /\
  (forall k, In k (keys (combinedIngredients (Some [Sample.flour_cup_spaced]))) <->
             In k (map key_of [Sample.flour_cup_spaced])) /\
  length (aggregate "list-1" "now" [Sample.flour_cup_spaced]) =
    length (keys (combinedIngredients (Some [Sample.flour_cup_spaced]))).
Proof.
  apply (@lines_with_equal_key_merge "list-1" "now" Sample.flour_cup
           (Sample.line "rec-B" " flour " "CUP" None)
           [Sample.flour_cup_spaced]); reflexivity.
Defined.

(** ** Lines with a text quantity *)

(** C4, the code at the failing input. Step 6 does not select
    quantity_display, so that a line with the text "a pinch" is grouped
    like any other: with a numeric line of the same name and unit it
    makes one item, not two. The item holds 1 when the text line has no
    quantity, 2 when its column holds the number 1; and the two lines
    make one item whatever quantity and text they hold. *)
Theorem text_quantity_line_is_merged :
  map (fun i => (Insert.name i, Insert.unit i,
                 num_eqb (Insert.quantity i) (of_Z 1)))
      (aggregate "list-1" "2025-10-25T00:00:00.000Z"
         (map select_line [Sample.salt_tsp; Sample.salt_pinch])) =
    [("salt", "tsp", true)] /\
  map (fun i => (Insert.name i, Insert.unit i,
                 num_eqb (Insert.quantity i) (of_Z 2)))
      (aggregate "list-1" "2025-10-25T00:00:00.000Z"
         (map select_line [Sample.salt_tsp; Sample.salt_pinch_numbered])) =
    [("salt", "tsp", true)] /\
  forall (q1 q2 : nullable_number) (text : string),
    length (aggregate "list-1" "2025-10-25T00:00:00.000Z"
              (map select_line
                 [Sample.stored "rec-A" "salt" "tsp" q1 None;
                  Sample.stored "rec-B" "salt" "tsp" q2 (Some text)])) = 1%nat.
Proof.
  split; [reflexivity|]. split; [reflexivity|]. intros q1 q2 text.
  unfold aggregate. cbn [map]. rewrite combined_pair. reflexivity.
Qed.

(** ** Order of the lines *)

(** The summed quantity stored under a key, if the key is there. *)
Lemma quantity_of_merged (a b : Line.t) :
  to_number (Combined.quantity (merged b (first_seen a))) =
  add (to_number (Line.quantity a)) (to_number (Line.quantity b)).
Proof. reflexivity. Qed.

(** C8. For two lines A and B, the maps built from [A; B] and from
    [B; A] hold the same keys, and under each key summed quantities
    that denote the same number. *)
Theorem aggregation_of_two_lines_ignores_order (a b : Line.t) (k : string) :
  match get k (combinedIngredients (Some [a; b])),
        get k (combinedIngredients (Some [b; a])) with
  | Some x, Some y =>
      num_eq (to_number (Combined.quantity x)) (to_number (Combined.quantity y))
  | None, None => True
  | _, _ => False
  end.
Proof.
  rewrite !combined_pair. rewrite (String.eqb_sym (key_of a) (key_of b)).
  destruct (String.eqb (key_of b) (key_of a)) eqn:E.
  - apply String.eqb_eq in E. rewrite E. cbn [get].
    destruct (String.eqb k (key_of a)); [|exact I].
    rewrite !quantity_of_merged. apply add_comm.
  - cbn [get].
    destruct (String.eqb k (key_of a)) eqn:Ea;
      destruct (String.eqb k (key_of b)) eqn:Eb;
      try exact I; try apply num_eq_refl.
    apply String.eqb_eq in Ea, Eb. rewrite <- Ea, <- Eb in E.
    now rewrite String.eqb_refl in E.
Qed.

(** ** No line at all *)

(** C9. Without ingredient lines, whether the query answers an empty
    list or [null], step 7 builds an empty map and step 8 no row; a
    request accepted by steps 1 to 4 whose queries do not fail is
    answered with status 200, items_added = 0 and no item, and nothing
    is inserted. *)
Theorem no_lines_no_items (r : Request) (replace : bool)
    (shoppingListId : string) :
  accept r = inr (replace, shoppingListId) ->
  replace && delete_error r = false ->
  error (ingredients_answer r) = false ->
  data (ingredients_answer r) = None \/ data (ingredients_answer r) = Some [] ->
  combinedIngredients (data (ingredients_answer r)) = [] /\
  aggregate shoppingListId (now r) [] = [] /\
  POST r = Ok200 {| id := shoppingListId;
                    items_added := 0;
                    items_updated := 0;
                    items := [] |}.
Proof.
  intros Ha Hdel He Hd.
  assert (Hm : combinedIngredients (data (ingredients_answer r)) = [])
    by (destruct Hd as [-> | ->]; reflexivity).
  split; [exact Hm|]. split; [reflexivity|].
  unfold POST. rewrite Ha. unfold fill. rewrite Hdel, He, Hm. reflexivity.
Qed.

(** Witness for C9: the recipe of the request has no line. *)
Lemma no_lines_no_items_witness :
  combinedIngredients
    (data (ingredients_answer (Sample.generate_request (Some [])))) = [] /\
  aggregate "list-1" (now (Sample.generate_request (Some []))) [] = [] /\
  POST (Sample.generate_request (Some [])) =
    Ok200 {| id := "list-1";
             items_added := 0;
             items_updated := 0;
             items := [] |}.
Proof.
  apply (@no_lines_no_items (Sample.generate_request (Some [])) false "list-1");
    [reflexivity | reflexivity | reflexivity | right; reflexivity].
Defined.

(** An empty list of recipe ids, on the other hand, is refused in
    step 2, before any line is fetched. *)
Remark empty_recipe_ids_refused (r : Request) (user : string) (c : Command.t) :
  bearer_token (authorization r) <> None ->
  (forall token, getUser r token = answered user) ->
  body r = Some c ->
  Command.recipe_ids c = Some [] ->
  POST r = jsonError VALIDATION_ERROR "recipe_ids must be a non-empty array" 400
             (Some "recipe_ids").
Proof.
  intros Ht Hu Hb Hids. unfold POST, accept.
  destruct (bearer_token (authorization r)) as [token|]; [|congruence].
  now rewrite Hu, Hb, Hids.
Qed.

End GenerateProps.

(* ================================================================== *)
(** * Further facts about strings and rounding                         *)
(* ================================================================== *)

Module JsMore.

Import Js JsFacts Derived.
Local Open Scope string_scope.

(** ** Lower case and white space *)

Lemma lower_char_idem (c : ascii) : lower_char (lower_char c) = lower_char c.
Proof. destruct c as [[] [] [] [] [] [] [] []]; reflexivity. Qed.

Lemma is_space_lower (c : ascii) : is_space (lower_char c) = is_space c.
Proof. destruct c as [[] [] [] [] [] [] [] []]; reflexivity. Qed.

Lemma toLowerCase_idem (s : string) : toLowerCase (toLowerCase s) = toLowerCase s.
Proof.
  induction s as [|c s IH]; [reflexivity|].
  cbn [toLowerCase]. now rewrite lower_char_idem, IH.
Qed.

Lemma toLowerCase_empty (s : string) : toLowerCase s = "" -> s = "".
Proof. destruct s; [reflexivity|discriminate]. Qed.

Lemma toLowerCase_trimStart (s : string) :
  toLowerCase (trimStart s) = trimStart (toLowerCase s).
Proof.
  induction s as [|c s IH]; [reflexivity|].
  cbn [toLowerCase trimStart]. rewrite is_space_lower.
  destruct (is_space c); [exact IH|reflexivity].
Qed.

Lemma toLowerCase_trimEnd (s : string) :
  toLowerCase (trimEnd s) = trimEnd (toLowerCase s).
Proof.
  induction s as [|c s IH]; [reflexivity|].
  cbn [toLowerCase trimEnd]. rewrite <- IH, is_space_lower.
  destruct (trimEnd s) as [|a t]; cbn [toLowerCase].
  - destruct (is_space c); reflexivity.
  - reflexivity.
Qed.

(** Lower-casing and trimming commute. *)
Lemma toLowerCase_trim (s : string) : toLowerCase (trim s) = trim (toLowerCase s).
Proof. unfold trim. now rewrite toLowerCase_trimEnd, toLowerCase_trimStart. Qed.

Lemma trimEnd_idem (s : string) : trimEnd (trimEnd s) = trimEnd s.
Proof.
  induction s as [|c s IH]; [reflexivity|]. cbn [trimEnd].
  destruct (trimEnd s) as [|a t] eqn:E.
  - destruct (is_space c) eqn:Ec; [reflexivity|].
    cbn [trimEnd]. now rewrite Ec.
  - cbn [trimEnd] in *. now rewrite IH.
Qed.

Lemma trimStart_clean (s : string) : starts_clean (trimStart s).
Proof.
  induction s as [|c s IH]; [exact I|]. cbn [trimStart].
  destruct (is_space c) eqn:E; [exact IH|exact E].
Qed.

Lemma trimStart_of_clean (s : string) : starts_clean s -> trimStart s = s.
Proof. destruct s as [|c s]; [reflexivity|]. cbn. now intros ->. Qed.

Lemma trimEnd_clean (s : string) : starts_clean s -> starts_clean (trimEnd s).
Proof.
  destruct s as [|c s]; [intros _; exact I|]. cbn [starts_clean trimEnd].
  intro E. destruct (trimEnd s); [rewrite E|]; exact E.
Qed.

Lemma trim_idem (s : string) : trim (trim s) = trim s.
Proof.
  unfold trim.
  rewrite trimStart_of_clean by (apply trimEnd_clean, trimStart_clean).
  apply trimEnd_idem.
Qed.

(** ** Rounding to two decimals *)

(** The rounded value is a multiple of 1/100 at most 1/200 away. *)
Lemma round_to_cents_close (x : Q) :
  exists k : Z,
    Scale.round_to_cents (Fin x) = Fin (inject_Z k / 100) /\
    x - (1 # 200) < inject_Z k / 100 /\ inject_Z k / 100 <= x + (1 # 200).
Proof.
  exists (Qfloor (x * 100 + (1 # 2))). split; [reflexivity|].
  pose proof (Qfloor_le (x * 100 + (1 # 2))) as Hle.
  pose proof (Qlt_floor (x * 100 + (1 # 2))) as Hlt.
  rewrite inject_Z_plus in Hlt.
  set (k := inject_Z (Qfloor (x * 100 + (1 # 2)))) in *.
  split.
  - apply Qlt_shift_div_l; [reflexivity|].
    apply (Qplus_lt_l _ _ 1). 
    eapply Qle_lt_trans; [|exact Hlt].
    apply Qle_lteq. right. field.
  - apply Qle_shift_div_r; [reflexivity|].
    eapply Qle_trans; [exact Hle|].
    apply Qle_lteq. right. field.
Qed.

(** Rounding keeps the order. *)
Lemma round_to_cents_monotone (x y : Q) :
  x <= y ->
  le (Scale.round_to_cents (Fin x)) (Scale.round_to_cents (Fin y)) = true.
Proof.
  intro H. change (Qle_bool (inject_Z (Qfloor (x * 100 + (1 # 2))) / 100)
                            (inject_Z (Qfloor (y * 100 + (1 # 2))) / 100) = true).
  apply Qle_bool_iff. apply Qmult_le_compat_r; [|discriminate].
  rewrite <- Zle_Qle. apply Qfloor_resp_le.
  apply Qplus_le_l. apply Qmult_le_compat_r; [exact H|discriminate].
Qed.

(** One case analysis on a condition that is not itself a case
    analysis. *)
Ltac branch :=
  match goal with
  | |- context [match ?x with _ => _ end] =>
      lazymatch x with
      | context [match _ with _ => _ end] => fail
      | _ => destruct x eqn:?
      end
  end; cbv beta iota.

End JsMore.

(* ================================================================== *)
(** * Further properties of the shopping-list handler                  *)
(* ================================================================== *)

Module GenerateMore.

Import Js Http Generate JsFacts Derived JsMore.
Local Open Scope string_scope.

(** ** The normalised name and the key *)

(** X1. [normalizeIngredientName] is idempotent, and its result is
    both lower-cased and trimmed: normalising a name that was
    normalised before, as the names of the ingredients table are,
    changes nothing. *)
Theorem normalizeIngredientName_idempotent (name : string) :
  normalizeIngredientName (normalizeIngredientName name) =
    normalizeIngredientName name /\
  toLowerCase (normalizeIngredientName name) = normalizeIngredientName name /\
  trim (normalizeIngredientName name) = normalizeIngredientName name.
Proof.
  unfold normalizeIngredientName.
  assert (L : toLowerCase (trim (toLowerCase name)) = trim (toLowerCase name))
    by now rewrite toLowerCase_trim, toLowerCase_idem.
  split; [|split].
  - now rewrite L, trim_idem.
  - exact L.
  - apply trim_idem.
Qed.

Lemma append_colons_inj (n1 n2 u1 u2 : string) :
  no_colon n1 = true -> no_colon n2 = true ->
  n1 ++ "::" ++ u1 = n2 ++ "::" ++ u2 -> n1 = n2 /\ u1 = u2.
Proof.
  revert n2. induction n1 as [|c n1 IH]; intros [|c2 n2] H1 H2 E.
  - cbn in E. injection E as E. auto.
  - cbn in E. injection E as Ec _. subst c2. discriminate.
  - cbn in E. injection E as Ec _. subst c. discriminate.
  - cbn in E. injection E as Ec E. subst c2.
    cbn [no_colon] in H1, H2.
    apply andb_true_iff in H1. apply andb_true_iff in H2.
    destruct (IH n2 (proj2 H1) (proj2 H2) E) as [-> ->]. auto.
Qed.

(** X2. For ingredient names without a colon, the key identifies the
    pair of the normalised name and the lower-cased unit: two lines
    have the same key exactly when their names are equal once
    normalised and their units are equal once lower-cased. *)
Theorem key_of_injective (a b : Line.t) :
  no_colon (Line.ingredient_name a) = true ->
  no_colon (Line.ingredient_name b) = true ->
  (key_of a = key_of b <->
   normalizeIngredientName (Line.ingredient_name a) =
     normalizeIngredientName (Line.ingredient_name b) /\
   toLowerCase (Line.unit a) = toLowerCase (Line.unit b)).
Proof.
  assert (Hlow : forall s, no_colon s = true -> no_colon (toLowerCase s) = true).
  { induction s as [|c s IH]; [reflexivity|]. cbn [no_colon toLowerCase].
    intro H. apply andb_true_iff in H. destruct H as [Hc Hs].
    rewrite (IH Hs), andb_true_r.
    clear - Hc. destruct c as [[] [] [] [] [] [] [] []]; try reflexivity;
      discriminate. }
  assert (Hts : forall s, no_colon s = true -> no_colon (trimStart s) = true).
  { induction s as [|c s IH]; [reflexivity|]. cbn [no_colon trimStart].
    intro H. destruct (is_space c); [|exact H].
    apply andb_true_iff in H. now apply IH. }
  assert (Hte : forall s, no_colon s = true -> no_colon (trimEnd s) = true).
  { induction s as [|c s IH]; [reflexivity|]. cbn [no_colon trimEnd].
    intro H. apply andb_true_iff in H. destruct H as [Hc Hs].
    specialize (IH Hs). destruct (trimEnd s) as [|h t].
    - destruct (is_space c); [reflexivity|]. cbn [no_colon]. now rewrite Hc.
    - cbn [no_colon] in *. now rewrite Hc, IH. }
  intros Ha Hb. unfold key_of, normalizeIngredientName. split.
  - apply append_colons_inj; unfold trim; auto.
  - intros [-> ->]. reflexivity.
Qed.

(** Witness for X2: "Sugar" in "g" and " sugar" in "G". *)
Lemma key_of_injective_witness :
  key_of (Sample.line "rec-A" "Sugar" "g" None) =
    key_of (Sample.line "rec-B" " sugar" "G" None) <->
  normalizeIngredientName "Sugar" = normalizeIngredientName " sugar" /\
  toLowerCase "g" = toLowerCase "G".
Proof.
  apply (@key_of_injective (Sample.line "rec-A" "Sugar" "g" None)
           (Sample.line "rec-B" " sugar" "G" None)); reflexivity.
Defined.

(** ** Reading the map of step 7 *)

Lemma has_get (k : string) (m : Map) :
  has k m = match get k m with Some _ => true | None => false end.
Proof.
  induction m as [|[k' v] m IH]; [reflexivity|]. cbn [has get].
  destruct (String.eqb k k'); [reflexivity|exact IH].
Qed.

Lemma get_modify (k k' : string) (f : Combined.t -> Combined.t) (m : Map) :
  get k (modify k' f m) =
  if String.eqb k k' then option_map f (get k m) else get k m.
Proof.
  induction m as [|[k0 v] m IH]; [now destruct (String.eqb k k')|].
  cbn [modify get]. destruct (String.eqb k' k0) eqn:E0.
  - apply String.eqb_eq in E0. subst k0. cbn [get].
    destruct (String.eqb k k'); reflexivity.
  - cbn [get]. destruct (String.eqb k k0) eqn:E1; [|exact IH].
    apply String.eqb_eq in E1. subst k0.
    now rewrite String.eqb_sym, E0.
Qed.

Lemma get_set_new (k k' : string) (v : Combined.t) (m : Map) :
  get k (set_new k' v m) =
  match get k m with
  | Some e => Some e
  | None => if String.eqb k k' then Some v else None
  end.
Proof.
  unfold set_new. induction m as [|[k0 v0] m IH]; [reflexivity|].
  cbn [app get]. destruct (String.eqb k k0); [reflexivity|exact IH].
Qed.

(** What a line does to the object read under a key. *)
Lemma get_combine (k : string) (m : Map) (ri : Line.t) :
  get k (combine m ri) =
  if String.eqb (key_of ri) k
  then Some (match get k m with
             | Some e => merged ri e
             | None => first_seen ri
             end)
  else get k m.
Proof.
  unfold combine. rewrite has_get.
  destruct (String.eqb (key_of ri) k) eqn:E.
  - apply String.eqb_eq in E. subst k.
    destruct (get (key_of ri) m) as [e|] eqn:G.
    + now rewrite get_modify, String.eqb_refl, G.
    + now rewrite get_set_new, G, String.eqb_refl.
  - rewrite String.eqb_sym in E.
    destruct (get (key_of ri) m) as [e|] eqn:G.
    + now rewrite get_modify, E.
    + rewrite get_set_new, E. now destruct (get k m).
Qed.

(** The object after further lines of its key. *)
Lemma merged_grouped (first ri : Line.t) (rest : list Line.t) :
  merged ri (grouped first rest) = grouped first (rest ++ [ri]).
Proof.
  unfold merged, grouped, plus_assign, sum_from, recipes_from.
  cbn [Combined.name Combined.quantity Combined.unit Combined.recipe_ids].
  rewrite !fold_left_app. cbn [fold_left].
  destruct rest as [|r0 rest]; [reflexivity|].
  cbn [app to_number]. reflexivity.
Qed.

Lemma get_fold (k : string) (lines : list Line.t) :
  forall (m : Map) (first : Line.t) (seen : list Line.t),
    get k m = Some (grouped first seen) ->
    get k (fold_left combine lines m) =
    Some (grouped first (seen ++ lines_of k lines)).
Proof.
  induction lines as [|ri rest IH]; intros m first seen G; cbn [fold_left].
  - unfold lines_of. cbn [filter]. now rewrite app_nil_r.
  - unfold lines_of. cbn [filter]. fold (lines_of k rest).
    destruct (String.eqb (key_of ri) k) eqn:E.
    + rewrite (@IH (combine m ri) first (seen ++ [ri])%list).
      * now rewrite <- app_assoc.
      * now rewrite get_combine, E, G, merged_grouped.
    + apply IH. now rewrite get_combine, E.
Qed.

Lemma get_fold_absent (k : string) (lines : list Line.t) :
  forall m : Map,
    get k m = None ->
    get k (fold_left combine lines m) =
    match lines_of k lines with
    | [] => None
    | first :: rest => Some (grouped first rest)
    end.
Proof.
  induction lines as [|ri rest IH]; intros m G; cbn [fold_left].
  - exact G.
  - unfold lines_of. cbn [filter]. fold (lines_of k rest).
    destruct (String.eqb (key_of ri) k) eqn:E.
    + apply (@get_fold k rest (combine m ri) ri []).
      now rewrite get_combine, E, G.
    + apply IH. now rewrite get_combine, E.
Qed.

(** X3. Step 7 groups the lines by key: under a key the map holds
    nothing when no line has that key; otherwise it holds the name and
    the unit of the first line of the key, the quantities of the key's
    lines added up in the order of the input (the first one as it is
    when it is the only one), and the ids of their recipes without
    repetition. *)
Theorem combinedIngredients_groups (lines : list Line.t) (k : string) :
  get k (combinedIngredients (Some lines)) =
  match lines_of k lines with
  | [] => None
  | first :: rest => Some (grouped first rest)
  end.
Proof. unfold combinedIngredients. now apply get_fold_absent. Qed.

Lemma get_combined (lines : list Line.t) (k : string) :
  get k (fold_left combine lines []) =
  match lines_of k lines with
  | [] => None
  | first :: rest => Some (grouped first rest)
  end.
Proof. now apply get_fold_absent. Qed.

Lemma get_In (k : string) (e : Combined.t) (m : Map) :
  get k m = Some e -> In (k, e) m.
Proof.
  induction m as [|[k' v] m IH]; [discriminate|]. cbn [get In].
  destruct (String.eqb k k') eqn:E.
  - apply String.eqb_eq in E. intro H. injection H as ->. left. now subst.
  - intro H. right. auto.
Qed.

Lemma In_get (k : string) (e : Combined.t) (m : Map) :
  NoDup (keys m) -> In (k, e) m -> get k m = Some e.
Proof.
  induction m as [|[k' v] m IH]; [intros _ []|].
  unfold keys. cbn [map fst get In]. intros Hnd [H|H].
  - injection H as -> ->. now rewrite String.eqb_refl.
  - inversion Hnd as [|? ? Hnot Hnd']; subst.
    destruct (String.eqb k k') eqn:E; [|now apply IH].
    apply String.eqb_eq in E. subst k'. exfalso. apply Hnot.
    change k with (fst (k, e)). now apply in_map.
Qed.

Lemma combinedIngredients_NoDup (lines : list Line.t) :
  NoDup (keys (combinedIngredients (Some lines))).
Proof. apply (@GenerateProps.fold_combine_keys lines []). constructor. Qed.

Lemma quantity_grouped (first : Line.t) (rest : list Line.t) :
  to_number (Combined.quantity (grouped first rest)) =
  sum_from (to_number (Line.quantity first)) rest.
Proof. destruct rest; reflexivity. Qed.

(** X4. The rows handed to the database are exactly the groups of the
    lines: a row is inserted if and only if it is, for some line
    [first] that is the first of its key and the lines [rest] that
    follow it under that key, the row that carries the name and the
    unit of [first], the quantities of [first] and [rest] added in this
    order and rounded to two decimals, no source recipe, no category
    and the unchecked state. *)
Theorem aggregate_rows (shoppingListId now : string) (lines : list Line.t)
    (row : Insert.t) :
  In row (aggregate shoppingListId now lines) <->
  exists first rest,
    lines_of (key_of first) lines = first :: rest /\
    row = {| Insert.shopping_list_id := shoppingListId;
             Insert.source_recipe_id := None;
             Insert.name := Line.ingredient_name first;
             Insert.quantity :=
               round_to_cents (sum_from (to_number (Line.quantity first)) rest);
             Insert.unit := Line.unit first;
             Insert.category := None;
             Insert.is_checked := false;
             Insert.created_at := now |}.
Proof.
  unfold aggregate, itemsToInsert, values. rewrite map_map, in_map_iff. split.
  - intros ([k e] & <- & Hin). cbn [snd].
    apply In_get in Hin; [|apply combinedIngredients_NoDup].
    unfold combinedIngredients in Hin. rewrite get_combined in Hin.
    destruct (lines_of k lines) as [|first rest] eqn:L; [discriminate|].
    injection Hin as <-.
    assert (Hk : key_of first = k).
    { assert (Hf : In first (lines_of k lines)) by (rewrite L; now left).
      apply filter_In in Hf. now apply String.eqb_eq. }
    exists first, rest. rewrite Hk, quantity_grouped. auto.
  - intros (first & rest & L & ->).
    exists (key_of first, grouped first rest). cbn [snd].
    rewrite quantity_grouped. split; [reflexivity|].
    apply get_In. unfold combinedIngredients. now rewrite get_combined, L.
Qed.

Lemma keys_fold_prefix (lines : list Line.t) :
  forall m : Map,
    exists ext, keys (fold_left combine lines m) = (keys m ++ ext)%list.
Proof.
  induction lines as [|ri rest IH]; intro m; cbn [fold_left].
  - exists []. now rewrite app_nil_r.
  - destruct (IH (combine m ri)) as [ext E]. rewrite E, GenerateProps.keys_combine.
    destruct (has (key_of ri) m).
    + now exists ext.
    + exists (key_of ri :: ext). now rewrite <- app_assoc.
Qed.

(** X5. Lines that come later never displace an item: the keys of the
    lines [before] stay where they are, in front of the new keys, and
    each of their items keeps its name and its unit. *)
Theorem later_lines_keep_items (before after : list Line.t) :
  (exists ext,
     keys (combinedIngredients (Some (before ++ after)%list)) =
     (keys (combinedIngredients (Some before)) ++ ext)%list) /\
  forall k e,
    get k (combinedIngredients (Some before)) = Some e ->
    exists e',
      get k (combinedIngredients (Some (before ++ after)%list)) = Some e' /\
      Combined.name e' = Combined.name e /\
      Combined.unit e' = Combined.unit e.
Proof.
  split.
  - unfold combinedIngredients. rewrite fold_left_app. apply keys_fold_prefix.
  - intros k e. unfold combinedIngredients. rewrite !get_combined.
    unfold lines_of. rewrite filter_app. fold (lines_of k before).
    destruct (lines_of k before) as [|first rest]; [discriminate|].
    intro H. injection H as <-. cbn [app]. eexists. split; [reflexivity|].
    split; reflexivity.
Qed.

Lemma length_aggregate (shoppingListId now : string) (lines : list Line.t) :
  length (aggregate shoppingListId now lines) =
  length (keys (combinedIngredients (Some lines))).
Proof. unfold aggregate, itemsToInsert, values, keys. now rewrite !length_map. Qed.

(** X6. The items do not depend on the order of the lines as far as
    their keys and their number go: two lists of the same lines in a
    different order give the same set of keys and as many rows. *)
Theorem keys_ignore_order (shoppingListId now : string)
    (lines lines' : list Line.t) :
  Permutation lines lines' ->
  (forall k, In k (keys (combinedIngredients (Some lines))) <->
             In k (keys (combinedIngredients (Some lines')))) /\
  length (aggregate shoppingListId now lines) =
  length (aggregate shoppingListId now lines').
Proof.
  intro P.
  assert (Hk : forall l k, In k (keys (combinedIngredients (Some l))) <->
                           In k (map key_of l)).
  { intros l k. destruct (@GenerateProps.fold_combine_keys l []) as [_ H];
      [constructor|].
    unfold combinedIngredients. rewrite H. cbn [keys map In]. tauto. }
  assert (Hs : forall k, In k (keys (combinedIngredients (Some lines))) <->
                         In k (keys (combinedIngredients (Some lines')))).
  { intro k. rewrite !Hk. split; apply Permutation_in;
      [|symmetry]; now apply Permutation_map. }
  split; [exact Hs|].
  rewrite !length_aggregate.
  apply Nat.le_antisymm; apply NoDup_incl_length;
    try apply combinedIngredients_NoDup; intros k Hin; now apply Hs.
Qed.

(** Witness for X6: two lines swapped. *)
Lemma keys_ignore_order_witness :
  (forall k,
     In k (keys (combinedIngredients
                   (Some [Sample.flour_cup; Sample.flour_cup_spaced]))) <->
     In k (keys (combinedIngredients
                   (Some [Sample.flour_cup_spaced; Sample.flour_cup])))) /\
  length (aggregate "list-1" "now" [Sample.flour_cup; Sample.flour_cup_spaced]) =
  length (aggregate "list-1" "now" [Sample.flour_cup_spaced; Sample.flour_cup]).
Proof.
  apply (@keys_ignore_order "list-1" "now"
           [Sample.flour_cup; Sample.flour_cup_spaced]
           [Sample.flour_cup_spaced; Sample.flour_cup]).
  apply perm_swap.
Defined.

(** X7. There are never more rows than lines, and there is a row as
    soon as there is a line. *)
Theorem aggregate_length (shoppingListId now : string) (lines : list Line.t) :
  (length (aggregate shoppingListId now lines) <= length lines)%nat /\
  (lines <> [] -> aggregate shoppingListId now lines <> []).
Proof.
  split.
  - rewrite length_aggregate, <- (length_map key_of lines).
    apply NoDup_incl_length; [apply combinedIngredients_NoDup|].
    intros k Hin.
    destruct (@GenerateProps.fold_combine_keys lines []) as [_ H]; [constructor|].
    apply H in Hin. destruct Hin as [[]|Hin]. exact Hin.
  - destruct lines as [|ri rest]; [congruence|]. intros _ E.
    assert (Hin : In (key_of ri) (keys (combinedIngredients (Some (ri :: rest))))).
    { destruct (@GenerateProps.fold_combine_keys (ri :: rest) []) as [_ H];
        [constructor|].
      apply H. right. now left. }
    unfold aggregate, itemsToInsert, values in E.
    apply map_eq_nil in E. apply map_eq_nil in E.
    unfold keys in Hin. rewrite E in Hin. exact Hin.
Qed.

(** X21. The quantity of a row is rounded to two decimals: when the
    quantities of a key's lines add up to a finite number, the row of
    that key holds a multiple of 1/100 that differs from the sum by at
    most 0.005. *)
Theorem row_quantity_error_bound (shoppingListId now : string)
    (lines : list Line.t) (first : Line.t) (rest : list Line.t) (x : Q) :
  lines_of (key_of first) lines = first :: rest ->
  sum_from (to_number (Line.quantity first)) rest = Fin x ->
  exists row y,
    In row (aggregate shoppingListId now lines) /\
    Insert.name row = Line.ingredient_name first /\
    Insert.unit row = Line.unit first /\
    Insert.quantity row = Fin y /\
    Spec.two_decimals y /\
    Qabs (y - x) <= 1 # 200.
Proof.
  intros L Hx.
  destruct (round_to_cents_close x) as (k & E & Hlo & Hhi).
  change (Scale.round_to_cents (Fin x)) with (round_to_cents (Fin x)) in E.
  eexists _, (inject_Z k / 100). split; [|split; [|split; [|split; [|split]]]].
  - unfold aggregate, itemsToInsert, values. rewrite map_map.
    apply in_map_iff. exists (key_of first, grouped first rest).
    split; [reflexivity|]. apply get_In.
    unfold combinedIngredients. now rewrite get_combined, L.
  - reflexivity.
  - reflexivity.
  - cbn [snd Insert.quantity]. now rewrite quantity_grouped, Hx.
  - now exists k.
  - apply Qabs_Qle_condition. split.
    + apply Qlt_le_weak. apply (Qplus_lt_l _ _ x).
      eapply Qle_lt_trans; [|eapply Qlt_le_trans; [exact Hlo|]];
        apply Qle_lteq; right; ring.
    + apply (Qplus_le_l _ _ x).
      eapply Qle_trans; [|eapply Qle_trans; [exact Hhi|]];
        apply Qle_lteq; right; ring.
Qed.

(** Witness for X21: two cups and one cup of flour. *)
Lemma row_quantity_error_bound_witness :
  exists row y,
    In row (aggregate "list-1" "now"
              [Sample.line "rec-A" "flour" "cup" (Some (Fin 2));
               Sample.line "rec-B" "flour" "cup" (Some (Fin 1))]) /\
    Insert.name row = "flour" /\
    Insert.unit row = "cup" /\
    Insert.quantity row = Fin y /\
    Spec.two_decimals y /\
    Qabs (y - (2 + 1)) <= 1 # 200.
Proof.
  apply (@row_quantity_error_bound "list-1" "now"
           [Sample.line "rec-A" "flour" "cup" (Some (Fin 2));
            Sample.line "rec-B" "flour" "cup" (Some (Fin 1))]
           (Sample.line "rec-A" "flour" "cup" (Some (Fin 2)))
           [Sample.line "rec-B" "flour" "cup" (Some (Fin 1))]
           (2 + 1)); reflexivity.
Defined.

(** ** The handler *)

Lemma generate_POST_lawful (r : Request) :
  lawful ["recipe_ids"; "replace_existing"] (POST r).
Proof.
  unfold POST, accept, shopping_list, fill.
  repeat branch; cbn; auto 6.
Qed.

(** X8. Every error of the handler is sent with the status of its
    code (400 validation, 401 authentication, 403 authorization, 404
    not found, 500 internal), and only a validation error names a
    field, which is then recipe_ids or replace_existing. *)
Theorem generate_error_statuses (r : Request) (status : Z) (e : ApiError) :
  POST r = ErrorResponse status e ->
  status = status_of (code e) /\
  (field e <> None ->
   code e = VALIDATION_ERROR /\
   (field e = Some "recipe_ids" \/ field e = Some "replace_existing")).
Proof.
  intro H. pose proof (generate_POST_lawful r) as L. rewrite H in L.
  destruct L as [Hs Hf]. split; [exact Hs|].
  destruct (field e) as [f|]; [|intro F; now elim F].
  intros _. destruct Hf as [Hc [<-|[<-|[]]]]; auto.
Qed.

(** Witness for X8: a request without Authorization header. *)
Lemma generate_error_statuses_witness :
  401%Z = status_of AUTHENTICATION_ERROR /\
  (@None string <> None ->
   AUTHENTICATION_ERROR = VALIDATION_ERROR /\
   (@None string = Some "recipe_ids" \/ @None string = Some "replace_existing")).
Proof.
  exact (@generate_error_statuses
           {| authorization := None;
              getUser := fun _ => answered "user-1";
              body := None;
              recipes_answer := answered [];
              list_answer := {| list_data := None; list_error := None |};
              create_answer := answered "list-1";
              delete_error := false;
              ingredients_answer := answered [];
              insert_answer := fun _ => answered [];
              now := "now" |}
           401
           {| code := AUTHENTICATION_ERROR;
              message := "Missing or invalid authorization header";
              field := None |}
           eq_refl).
Defined.

Lemma generate_accept_inr (r : Request) (replace : bool) (shoppingListId : string) :
  accept r = inr (replace, shoppingListId) ->
  exists token user c ids recipes,
    bearer_token (authorization r) = Some token /\
    error (getUser r token) = false /\
    data (getUser r token) = Some user /\
    body r = Some c /\
    Command.recipe_ids c = Some ids /\
    (1 <= length ids <= 50)%nat /\
    Command.replace_existing c = VBool replace /\
    data (recipes_answer r) = Some recipes /\
    length recipes = length ids /\
    Forall (fun rcp => Owner.user_id rcp = user) recipes /\
    shopping_list r = inr shoppingListId.
Proof.
  unfold accept.
  destruct (bearer_token (authorization r)) as [token|]; [|discriminate].
  destruct (error (getUser r token)) eqn:Eu; [discriminate|].
  destruct (data (getUser r token)) as [user|] eqn:Du; [|discriminate].
  destruct (body r) as [c|]; [|discriminate].
  destruct (Command.recipe_ids c) as [[|i0 ids]|] eqn:Ei; try discriminate.
  destruct (50 <? length (i0 :: ids))%nat eqn:E50; [discriminate|].
  destruct (Command.replace_existing c) as [| |b| | |] eqn:Er; try discriminate.
  destruct (error (recipes_answer r)); [discriminate|].
  destruct (data (recipes_answer r)) as [recipes|]; [|discriminate].
  destruct (length recipes =? length (i0 :: ids))%nat eqn:El; [|discriminate].
  cbn [negb].
  destruct (0 <? length (filter _ recipes))%nat eqn:Ef; [discriminate|].
  destruct (shopping_list r) as [e|l] eqn:Es; [discriminate|].
  intro H. injection H as <- <-.
  exists token, user, c, (i0 :: ids), recipes.
  apply Nat.ltb_ge in E50. apply Nat.eqb_eq in El. apply Nat.ltb_ge in Ef.
  repeat split; auto; [cbn; lia|].
  apply Forall_forall. intros rcp Hin.
  destruct (String.eqb (Owner.user_id rcp) user) eqn:E;
    [now apply String.eqb_eq|].
  exfalso.
  assert (Hf : In rcp (filter (fun rcp => negb (String.eqb (Owner.user_id rcp) user))
                              recipes))
    by (apply filter_In; split; [exact Hin | now rewrite E]).
  destruct (filter _ recipes); [exact Hf | cbn in Ef; lia].
Qed.

(** X9. The handler answers with status 200 only for an authenticated
    user who sends between 1 and 50 recipe ids and a boolean
    replace_existing, when the query finds as many recipes as ids and
    every one of them belongs to that user; the answer then reports no
    updated item and as many added items as it lists. *)
Theorem generate_success (r : Request) (resp : GenerateShoppingListResponse) :
  POST r = Ok200 resp ->
  (exists token user c ids recipes replace,
     bearer_token (authorization r) = Some token /\
     error (getUser r token) = false /\
     data (getUser r token) = Some user /\
     body r = Some c /\
     Command.recipe_ids c = Some ids /\
     (1 <= length ids <= 50)%nat /\
     Command.replace_existing c = VBool replace /\
     data (recipes_answer r) = Some recipes /\
     length recipes = length ids /\
     Forall (fun rcp => Owner.user_id rcp = user) recipes) /\
  items_updated resp = 0%nat /\
  items_added resp = length (items resp).
Proof.
  unfold POST. destruct (accept r) as [e|[replace l]] eqn:Ea.
  { intro H. subst e. unfold accept, shopping_list, jsonError in Ea. revert Ea.
    repeat branch; discriminate. }
  intro H. split.
  - destruct (generate_accept_inr _ Ea)
      as (token & user & c & ids & recipes & H1 & H2 & H3 & H4 & H5 & H6 & H7
          & H8 & H9 & H10 & _).
    exists token, user, c, ids, recipes, replace. auto 12.
  - revert H. unfold fill. repeat branch; intro H; try discriminate;
      injection H as <-; split; reflexivity.
Qed.

(** Witness for X9: the sample request for a recipe without lines. *)
Lemma generate_success_witness :
  exists resp, POST (Sample.generate_request (Some [])) = Ok200 resp /\
    (exists token user c ids recipes replace,
       bearer_token (authorization (Sample.generate_request (Some []))) = Some token /\
       error (getUser (Sample.generate_request (Some [])) token) = false /\
       data (getUser (Sample.generate_request (Some [])) token) = Some user /\
       body (Sample.generate_request (Some [])) = Some c /\
       Command.recipe_ids c = Some ids /\
       (1 <= length ids <= 50)%nat /\
       Command.replace_existing c = VBool replace /\
       data (recipes_answer (Sample.generate_request (Some []))) = Some recipes /\
       length recipes = length ids /\
       Forall (fun rcp => Owner.user_id rcp = user) recipes) /\
    items_updated resp = 0%nat /\
    items_added resp = length (items resp).
Proof.
  eexists. split; [reflexivity|].
  apply (@generate_success (Sample.generate_request (Some []))). reflexivity.
Defined.

(** X10. From an authenticated user with a JSON body, the handler
    refuses the member recipe_ids, naming it in the error, exactly when
    it is not an array, is empty or holds more than 50 ids; 50 ids are
    accepted. *)
Theorem recipe_ids_bounds (r : Request) (token user : string) (c : Command.t) :
  bearer_token (authorization r) = Some token ->
  getUser r token = answered user ->
  body r = Some c ->
  ((exists status e,
      POST r = ErrorResponse status e /\ field e = Some "recipe_ids") <->
   match Command.recipe_ids c with
   | Some ids => ids = [] \/ (50 < length ids)%nat
   | None => True
   end).
Proof.
  intros Ht Hu Hb. unfold POST, accept. rewrite Ht, Hu, Hb. cbn [error data answered].
  destruct (Command.recipe_ids c) as [[|i0 ids]|].
  - split; [auto|]. intros _. eexists _, _. split; reflexivity.
  - destruct (50 <? length (i0 :: ids))%nat eqn:E50.
    + apply Nat.ltb_lt in E50. split; [auto|]. intros _.
      eexists _, _. split; reflexivity.
    + apply Nat.ltb_ge in E50. split.
      * intros (status & e & H & F). exfalso. revert H.
        unfold shopping_list, fill.
        repeat branch; intro H; try discriminate;
          injection H as <- <-; discriminate.
      * intros [H|H]; [discriminate|lia].
  - split; [auto|]. intros _. eexists _, _. split; reflexivity.
Qed.

(** Witness for X10: 51 recipe ids. *)
Lemma recipe_ids_bounds_witness :
  (exists status e,
     POST {| authorization := Some "Bearer t";
             getUser := fun _ => answered "user-1";
             body := Some {| Command.recipe_ids := Some (repeat "rec" 51);
                             Command.replace_existing := VBool false |};
             recipes_answer := answered [];
             list_answer := {| list_data := None; list_error := None |};
             create_answer := answered "list-1";
             delete_error := false;
             ingredients_answer := answered [];
             insert_answer := fun _ => answered [];
             now := "now" |} = ErrorResponse status e /\
     field e = Some "recipe_ids") <->
  (repeat "rec" 51 = [] \/ (50 < length (repeat "rec" 51))%nat).
Proof.
  apply (@recipe_ids_bounds _ "t" "user-1"
           {| Command.recipe_ids := Some (repeat "rec" 51);
              Command.replace_existing := VBool false |}); reflexivity.
Defined.

End GenerateMore.

(* ================================================================== *)
(** * Further properties of the scale handler                          *)
(* ================================================================== *)

Module ScaleMore.

Import Js Http Scale JsFacts Derived JsMore.
Local Open Scope string_scope.

(** ** The Authorization header *)

Lemma prefix_split (p s : string) :
  prefix p s = true -> s = p ++ substring_from (String.length p) s.
Proof.
  revert s. induction p as [|a p IH]; intros s H; [reflexivity|].
  destruct s as [|b s]; [discriminate|]. cbn in H.
  destruct (ascii_dec a b) as [->|]; [|discriminate].
  cbn [String.length substring_from append]. f_equal. now apply IH.
Qed.

(** X11. The token both handlers authenticate with is what follows
    "Bearer " in the Authorization header: a header yields the token
    [t] exactly when it is "Bearer " followed by [t], and no token
    otherwise (no header, another scheme, another case). *)
Theorem bearer_token_exact (h : option string) (t : string) :
  bearer_token h = Some t <-> h = Some ("Bearer " ++ t).
Proof.
  split.
  - unfold bearer_token. destruct h as [h|]; [|discriminate].
    destruct (string_truthy h); [|discriminate]. cbn [andb].
    unfold startsWith. destruct (prefix "Bearer " h) eqn:E; [|discriminate].
    intro H. injection H as <-. f_equal. exact (prefix_split _ _ E).
  - intros ->. destruct t; reflexivity.
Qed.

(** ** Errors *)

Lemma scale_POST_lawful (r : Request) : lawful ["id"; "desired_servings"] (POST r).
Proof.
  unfold POST, accept, check_desired_servings.
  repeat branch; cbn; auto 6.
Qed.

(** X12. Every error of the handler is sent with the status of its
    code (400 validation, 403 authorization, 404 not found, 500
    internal), and only a validation error names a field, which is
    then id or desired_servings. *)
Theorem scale_error_statuses (r : Request) (status : Z) (e : ApiError) :
  POST r = ErrorResponse status e ->
  status = status_of (code e) /\
  (field e <> None ->
   code e = VALIDATION_ERROR /\
   (field e = Some "id" \/ field e = Some "desired_servings")).
Proof.
  intro H. pose proof (scale_POST_lawful r) as L. rewrite H in L.
  destruct L as [Hs Hf]. split; [exact Hs|].
  destruct (field e) as [f|]; [|intro F; now elim F].
  intros _. destruct Hf as [Hc [<-|[<-|[]]]]; auto.
Qed.

(** Witness for X12: a request to scale to 2000 servings. *)
Lemma scale_error_statuses_witness :
  400%Z = status_of VALIDATION_ERROR /\
  (Some "desired_servings" <> None ->
   VALIDATION_ERROR = VALIDATION_ERROR /\
   (Some "desired_servings" = Some "id" \/
    Some "desired_servings" = Some "desired_servings")).
Proof.
  exact (@scale_error_statuses
           (Sample.scale_request 4 (VNumber (of_Z 2000)) (Some []))
           400
           {| code := VALIDATION_ERROR;
              message := "desired_servings must not exceed 1000";
              field := Some "desired_servings" |}
           eq_refl).
Defined.

(** X13. The handler names the field id in its error exactly when the
    recipe id is missing, empty or made of white space only; this check
    comes first, whatever the body holds. *)
Theorem id_validation (r : Request) :
  (exists status e, POST r = ErrorResponse status e /\ field e = Some "id") <->
  match params_id r with
  | Some id => trim id = ""
  | None => True
  end.
Proof.
  assert (Hid : id_missing (params_id r) = true <->
                match params_id r with Some id => trim id = "" | None => True end).
  { unfold id_missing. destruct (params_id r) as [[|a s]|].
    - split; auto.
    - cbn [string_truthy negb orb].
      destruct (trim (String a s)); cbn; split; auto; discriminate.
    - split; auto. }
  rewrite <- Hid. unfold POST, accept.
  destruct (id_missing (params_id r)).
  - split; [auto|]. intros _. eexists _, _. split; reflexivity.
  - split; [|discriminate]. intros (status & e & H & F). exfalso. revert H.
    unfold check_desired_servings.
    repeat branch; intro H; try discriminate; injection H as <- <-;
      discriminate.
Qed.

(** X14. The messages of step 2: a member that is missing, not a
    number, [NaN] or 0 is reported as "required and must be a number"
    (0 included, being false in a condition); a negative number as
    "must be greater than 0"; a number above 1000, infinite or not, as
    "must not exceed 1000". *)
Theorem desired_servings_messages (v : value) :
  (is_number v = false \/ v = VNumber NaN \/ (exists q, v = VNumber (Fin q) /\ q == 0) ->
   check_desired_servings v =
     inl (desired_servings_error "desired_servings is required and must be a number")) /\
  (v = VNumber NegInf \/ (exists q, v = VNumber (Fin q) /\ q < 0) ->
   check_desired_servings v =
     inl (desired_servings_error "desired_servings must be greater than 0")) /\
  (v = VNumber PosInf \/ (exists q, v = VNumber (Fin q) /\ 1000 < q) ->
   check_desired_servings v =
     inl (desired_servings_error "desired_servings must not exceed 1000")).
Proof.
  split; [|split].
  - intros [H|[->|(q & -> & Hq)]].
    + destruct v; try discriminate; try reflexivity.
      * now destruct b.
      * now destruct s.
    + reflexivity.
    + unfold check_desired_servings. cbn [truthy number_truthy].
      apply Qeq_bool_iff in Hq. now rewrite Hq.
  - intros [->|(q & -> & Hq)]; [reflexivity|].
    unfold check_desired_servings. cbn [truthy number_truthy is_number le].
    assert (E0 : Qeq_bool q 0 = false).
    { destruct (Qeq_bool q 0) eqn:E; [|reflexivity].
      apply Qeq_bool_iff in E. rewrite E in Hq. now apply Qlt_irrefl in Hq. }
    rewrite E0. cbn [negb orb].
    assert (E1 : Qle_bool q 0 = true) by (apply Qle_bool_iff, Qlt_le_weak, Hq).
    now rewrite E1.
  - intros [->|(q & -> & Hq)]; [reflexivity|].
    unfold check_desired_servings. cbn [truthy number_truthy is_number le gt].
    assert (Hpos : 0 < q) by (eapply Qlt_trans; [|exact Hq]; reflexivity).
    rewrite (Qeq_bool_pos Hpos). cbn [negb orb].
    assert (E1 : Qle_bool q 0 = false).
    { destruct (Qle_bool q 0) eqn:E; [|reflexivity].
      apply Qle_bool_iff in E. exfalso. exact (Qlt_not_le _ _ Hpos E). }
    rewrite E1. unfold of_Z, Qltb.
    assert (E2 : Qle_bool q (inject_Z 1000) = false).
    { destruct (Qle_bool q (inject_Z 1000)) eqn:E; [|reflexivity].
      apply Qle_bool_iff in E. exfalso. exact (Qlt_not_le _ _ Hq E). }
    now rewrite E2.
Qed.

(** ** Who may scale a recipe *)

(** X15. A recipe is scaled only if it is public or belongs to the
    user the request is authenticated as: whenever the handler answers
    with status 200, the recipe it fetched is public, or the
    Authorization header carries a token whose user owns the recipe. *)
Theorem scaled_only_if_public_or_owned (r : Request) (dto : ScaledRecipeDTO) :
  POST r = Ok200 dto ->
  exists recipe,
    data (recipe_answer r) = Some recipe /\
    original_servings dto = Recipe.servings recipe /\
    (Recipe.is_public recipe = true \/
     authenticated_user r = Some (Recipe.user_id recipe)).
Proof.
  unfold POST. destruct (accept r) as [e|[recipe desired]] eqn:Ea.
  { intro H. subst e. exfalso. revert Ea.
    unfold accept, check_desired_servings, jsonError.
    repeat branch; discriminate. }
  destruct (error (ingredients_answer r)); [discriminate|].
  intro H. injection H as <-. exists recipe. revert Ea.
  unfold accept, authenticated_user.
  destruct (id_missing (params_id r)); [discriminate|].
  destruct (body r) as [c|]; [|discriminate].
  destruct (check_desired_servings (Command.desired_servings c)); [discriminate|].
  destruct (error (recipe_answer r)); [discriminate|].
  destruct (data (recipe_answer r)) as [rcp|]; [|discriminate].
  destruct (Recipe.is_public rcp) eqn:Ep; cbn [negb andb].
  - intro H. injection H as <- <-. auto.
  - destruct (match bearer_token (authorization r) with
              | Some token => getUser r token
              | None => None
              end) as [u|]; cbn [negb]; [|discriminate].
    destruct (String.eqb (Recipe.user_id rcp) u) eqn:Eu; cbn [negb];
      [|discriminate].
    apply String.eqb_eq in Eu. subst u.
    intro H. injection H as <- <-. auto.
Qed.

(** Witness for X15: an anonymous request for a public recipe. *)
Lemma scaled_only_if_public_or_owned_witness :
  exists recipe,
    data (recipe_answer (Sample.scale_request 4 (VNumber (of_Z 8)) None)) =
      Some recipe /\
    of_Z 4 = Recipe.servings recipe /\
    (Recipe.is_public recipe = true \/
     authenticated_user (Sample.scale_request 4 (VNumber (of_Z 8)) None) =
       Some (Recipe.user_id recipe)).
Proof.
  exact (@scaled_only_if_public_or_owned
           (Sample.scale_request 4 (VNumber (of_Z 8)) None)
           {| original_servings := of_Z 4;
              desired_servings := of_Z 8;
              scaling_factor := round_to_cents (div (of_Z 8) (of_Z 4));
              scaled_ingredients := [] |}
           eq_refl).
Defined.

(** X16. A public recipe is scaled for anyone: when the recipe the
    handler fetches is public (or none is found), its answer does not
    depend on the Authorization header nor on what the token stands
    for. *)
Theorem public_recipe_needs_no_token (r : Request)
    (header : option string) (users : string -> option string) :
  (forall recipe, data (recipe_answer r) = Some recipe ->
                  Recipe.is_public recipe = true) ->
  POST {| params_id := params_id r;
          body := body r;
          authorization := header;
          getUser := users;
          recipe_answer := recipe_answer r;
          ingredients_answer := ingredients_answer r |} = POST r.
Proof.
  intro Hpub. unfold POST, accept.
  cbn [params_id body authorization getUser recipe_answer ingredients_answer].
  destruct (id_missing (params_id r)); [reflexivity|].
  destruct (body r) as [c|]; [|reflexivity].
  destruct (check_desired_servings (Command.desired_servings c)); [reflexivity|].
  destruct (error (recipe_answer r)); [reflexivity|].
  destruct (data (recipe_answer r)) as [rcp|]; [|reflexivity].
  now rewrite (Hpub rcp eq_refl).
Qed.

(** Witness for X16: the sample public recipe, with and without a
    token. *)
Lemma public_recipe_needs_no_token_witness :
  POST {| params_id := Some "rec-1";
          body := Some {| Command.desired_servings := VNumber (of_Z 8) |};
          authorization := Some "Bearer stale";
          getUser := fun _ => Some "user-2";
          recipe_answer := answered (Sample.recipe 4);
          ingredients_answer := {| data := None; error := false |} |} =
  POST (Sample.scale_request 4 (VNumber (of_Z 8)) None).
Proof.
  apply (@public_recipe_needs_no_token
           (Sample.scale_request 4 (VNumber (of_Z 8)) None)
           (Some "Bearer stale") (fun _ => Some "user-2")).
  intros recipe H. injection H as <-. reflexivity.
Defined.

(** ** The scaled quantities *)

Lemma scaled_quantity_fin (s d q : Q) (ri : Line.t) :
  ~ s == 0 ->
  to_number (Line.quantity ri) = Fin q ->
  Scaled.scaled_quantity (scale_line (div (Fin d) (Fin s)) ri) =
  round_to_cents (Fin (q * (d / s))).
Proof.
  intros Hs Hq.
  assert (E : Qeq_bool s 0 = false).
  { destruct (Qeq_bool s 0) eqn:E; [|reflexivity].
    apply Qeq_bool_iff in E. contradiction. }
  rewrite div_fin by exact E. unfold scale_line.
  cbn [Scaled.scaled_quantity]. now rewrite Hq.
Qed.



(** X18. More servings never give less: for a recipe of [s > 0]
    servings and a line whose quantity is not negative, the scaled
    quantity for [d1] desired servings is at most the one for
    [d2 >= d1]. *)
Theorem scaled_quantity_monotone (s d1 d2 q : Q) (ri : Line.t) :
  0 < s -> d1 <= d2 ->
  to_number (Line.quantity ri) = Fin q -> 0 <= q ->
  le (Scaled.scaled_quantity (scale_line (div (Fin d1) (Fin s)) ri))
     (Scaled.scaled_quantity (scale_line (div (Fin d2) (Fin s)) ri)) = true.
Proof.
  intros Hs Hd Hq Hq0.
  assert (Hs0 : ~ s == 0).
  { intro E. rewrite E in Hs. exact (Qlt_irrefl _ Hs). }
  rewrite !(scaled_quantity_fin _ ri Hs0 Hq).
  apply round_to_cents_monotone.
  rewrite !(Qmult_comm q). apply Qmult_le_compat_r; [|exact Hq0].
  apply Qmult_le_compat_r; [exact Hd|].
  apply Qlt_le_weak, Qinv_lt_0_compat, Hs.
Qed.

(** Witness for X18: 1.15 cups for 4, scaled to 5 and to 6 servings. *)
Lemma scaled_quantity_monotone_witness :
  le (Scaled.scaled_quantity
        (scale_line (div (Fin 5) (Fin 4))
           (Sample.scale_line (Some (Sample.num 115 100)) None)))
     (Scaled.scaled_quantity
        (scale_line (div (Fin 6) (Fin 4))
           (Sample.scale_line (Some (Sample.num 115 100)) None))) = true.
Proof.
  apply (@scaled_quantity_monotone 4 5 6 (inject_Z 115 / inject_Z 100)
           (Sample.scale_line (Some (Sample.num 115 100)) None));
    [reflexivity | discriminate | reflexivity | discriminate].
Defined.

(** X19. Whole multiples are exact. Scaling a recipe of [s] servings to
    [k] times [s] servings reports the factor [k] and gives every
    quantity of at most two decimals exactly [k] times its value. *)
Theorem scaling_by_a_whole_factor (s : Q) (k : Z) (lines : list Line.t) :
  ~ s == 0 ->
  num_eq (scaling_factor (scale (Fin s) (Fin (inject_Z k * s)) (Some lines)))
         (Fin (inject_Z k)) /\
  Forall2
    (fun ri out =>
       forall q, to_number (Line.quantity ri) = Fin q -> Spec.two_decimals q ->
         num_eq (Scaled.scaled_quantity out) (Fin (inject_Z k * q)))
    lines
    (scaled_ingredients (scale (Fin s) (Fin (inject_Z k * s)) (Some lines))).
Proof.
  intro Hs.
  assert (E : Qeq_bool s 0 = false).
  { destruct (Qeq_bool s 0) eqn:E; [|reflexivity].
    apply Qeq_bool_iff in E. contradiction. }
  split.
  - unfold scale. cbn [scaling_factor]. rewrite div_fin by exact E.
    apply ScaleProps.round_to_cents_two_decimals.
    + now field.
    + exists (k * 100)%Z. rewrite inject_Z_mult. field.
  - unfold scale. cbn [scaled_ingredients].
    induction lines as [|ri rest IH]; cbn [map]; constructor; [|exact IH].
    intros q Hq [j Hj]. rewrite (scaled_quantity_fin _ ri Hs Hq).
    apply ScaleProps.round_to_cents_two_decimals.
    + now field.
    + exists (k * j)%Z. rewrite inject_Z_mult, Hj. field.
Qed.

(** Witness for X19: 4 servings tripled. *)
Lemma scaling_by_a_whole_factor_witness :
  num_eq
    (scaling_factor
       (scale (Fin 4) (Fin (inject_Z 3 * 4))
          (Some [Sample.scale_line (Some (Sample.num 115 100)) None])))
    (Fin (inject_Z 3)) /\
  Forall2
    (fun ri out =>
       forall q, to_number (Line.quantity ri) = Fin q -> Spec.two_decimals q ->
         num_eq (Scaled.scaled_quantity out) (Fin (inject_Z 3 * q)))
    [Sample.scale_line (Some (Sample.num 115 100)) None]
    (scaled_ingredients
       (scale (Fin 4) (Fin (inject_Z 3 * 4))
          (Some [Sample.scale_line (Some (Sample.num 115 100)) None]))).
Proof.
  apply (@scaling_by_a_whole_factor 4 3
           [Sample.scale_line (Some (Sample.num 115 100)) None]).
  discriminate.
Defined.

End ScaleMore.

(* ================================================================== *)
(** * Rounding of the scaled quantities                                *)
(* ================================================================== *)

Module ScaleRounding.

Import Js Http Scale JsFacts Derived JsMore.
Local Open Scope string_scope.


(** On binary64 numbers too the hundredths the handler computes stay
    within a half of the exact value: checked for the quantities 0.01 to
    3.00 of recipes of 1 to 6 servings scaled to 1 to 6 servings. *)
Lemma binary64_hundredths_close :
  forallb
    (fun k =>
       forallb
         (fun s => forallb (fun d => B64.hundredths_close k s d) (B64.range 1 6))
         (B64.range 1 6))
    (B64.range 1 300) = true.
Proof. vm_compute. reflexivity. Qed.



End ScaleRounding.
